(** * Theme deployment script (src/index.js): model and verified properties

    The script is one promise chain: three operations joined by
    [Promise.all] (scratch-directory preparation, [git branch], artifact
    listing), then [git fetch] / [git cherry], then the planner, then the
    removal of the scratch directory.  The model below follows the source
    function by function.

    Conventions of the model.
    - A JavaScript string is a [string] of 8-bit characters (code units
      below 256).  Every pattern of the source is ASCII, so comparing code
      units is what the source does on such strings.
    - A promise is a computation that yields a trace of observable events
      and an outcome: resolved with a value, rejected with an error, or the
      process has exited ([process.exit()]).
    - The outside world (file system, subprocesses, HTTP, ThemeKit, the
      build-and-deploy tool, the clock) is a record of answers, [World].
      Every external call of the source is made at most once per run, apart
      from [rm -r] which has one answer per call site. *)

From Stdlib Require Import List String Ascii ZArith Lia Bool DecimalString.
From Stdlib Require Import Sorted Permutation DecimalZ.
Import ListNotations.
Open Scope string_scope.

(** ** JavaScript string operations used by the script *)

Module Js.

(** [c] as a lower-case ASCII letter when it is an upper-case one: the
    canonicalisation of the [i] flag restricted to ASCII patterns. *)
Definition lowerChar (c : ascii) : ascii :=
  let n := nat_of_ascii c in
  if andb (Nat.leb 65 n) (Nat.leb n 90) then ascii_of_nat (n + 32) else c.

Fixpoint toLower (s : string) : string :=
  match s with
  | EmptyString => EmptyString
  | String c r => String (lowerChar c) (toLower r)
  end.

(** [startsWith p s]: [p] is a prefix of [s]. *)
Fixpoint startsWith (p s : string) : bool :=
  match p, s with
  | EmptyString, _ => true
  | String _ _, EmptyString => false
  | String a p', String b s' => if Ascii.eqb a b then startsWith p' s' else false
  end.

(** [includes needle s] is [~s.indexOf(needle)] read as a boolean:
    [indexOf] is not -1. *)
Fixpoint includes (needle s : string) : bool :=
  if startsWith needle s then true
  else match s with
       | EmptyString => false
       | String _ r => includes needle r
       end.

(** [/a|b|c/.test(s)] for literal alternatives, and with the [i] flag. *)
Definition test (alts : list string) (s : string) : bool :=
  existsb (fun a => includes a s) alts.

Definition testI (alts : list string) (s : string) : bool :=
  existsb (fun a => includes (toLower a) (toLower s)) alts.

Fixpoint revOnto (s acc : string) : string :=
  match s with
  | EmptyString => acc
  | String c r => revOnto r (String c acc)
  end.

Definition rev (s : string) : string := revOnto s EmptyString.

(** [s.split(sep)] for a non-empty separator: cut at every occurrence found
    scanning from the left, occurrences do not overlap.  [skip] counts the
    characters of a separator still to be passed over; [cur] is the current
    piece, reversed. *)
Fixpoint splitAux (sep s : string) (skip : nat) (cur : string) : list string :=
  match s with
  | EmptyString => [rev cur]
  | String c r =>
      match skip with
      | S k => splitAux sep r k cur
      | O =>
          if startsWith sep s
          then rev cur :: splitAux sep r (String.length sep - 1) EmptyString
          else splitAux sep r 0 (String c cur)
      end
  end.

Definition split (sep s : string) : list string := splitAux sep s 0 EmptyString.

(** White space and line terminators removed by [trim], among code units
    below 256: TAB, LF, VT, FF, CR, SP, NBSP. *)
Definition isSpace (c : ascii) : bool :=
  let n := nat_of_ascii c in
  orb (andb (Nat.leb 9 n) (Nat.leb n 13)) (orb (Nat.eqb n 32) (Nat.eqb n 160)).

Fixpoint trimStart (s : string) : string :=
  match s with
  | EmptyString => EmptyString
  | String c r => if isSpace c then trimStart r else s
  end.

Definition trim (s : string) : string := rev (trimStart (rev (trimStart s))).

(** [s.replace('* ', '')]: the first occurrence of the literal is removed. *)
Fixpoint removeFirst (lit s : string) : string :=
  match s with
  | EmptyString => EmptyString
  | String c r =>
      if startsWith lit s
      then substring (String.length lit) (String.length s) s
      else String c (removeFirst lit r)
  end.

(** [s.replace(/[+-] ?/, '')]: the first [+] or [-] is removed, with the
    space that follows it when there is one. *)
Fixpoint removeMarker (s : string) : string :=
  match s with
  | EmptyString => EmptyString
  | String c r =>
      if orb (Ascii.eqb c "+") (Ascii.eqb c "-")
      then match r with
           | String " " r' => r'
           | _ => r
           end
      else String c (removeMarker r)
  end.

(** Line terminators, which [.] does not match. *)
Definition isLineTerminator (c : ascii) : bool :=
  orb (Ascii.eqb c "010") (Ascii.eqb c "013").

(** The pattern of line 228 reads: any run of characters, an opening
    parenthesis, a captured run of characters, a closing parenthesis.  It is
    matched the way the regular-expression engine does it, by backtracking:
    a star first takes all it can and gives back one character at a time
    until what follows matches.  [k] is what follows. *)
Fixpoint dotStar {R} (s : string) (k : string -> option R) : option R :=
  match s with
  | EmptyString => k EmptyString
  | String c r =>
      if isLineTerminator c then k s
      else match dotStar r k with
           | Some x => Some x
           | None => k s
           end
  end.

(** The captured star; [acc] is the text taken so far, reversed. *)
Fixpoint dotStarGroup {R} (s acc : string) (k : string -> string -> option R)
  : option R :=
  match s with
  | EmptyString => k (rev acc) EmptyString
  | String c r =>
      if isLineTerminator c then k (rev acc) s
      else match dotStarGroup r (String c acc) k with
           | Some x => Some x
           | None => k (rev acc) s
           end
  end.

Definition expect {R} (c : ascii) (s : string) (k : string -> option R) : option R :=
  match s with
  | String d r => if Ascii.eqb d c then k r else None
  | EmptyString => None
  end.

(** A match that starts at the beginning of [s]; the result is group 1. *)
Definition matchParenGroupAt (s : string) : option string :=
  dotStar s (fun s1 =>
  expect "(" s1 (fun s2 =>
  dotStarGroup s2 EmptyString (fun g s3 =>
  expect ")" s3 (fun _ => Some g)))).

(** [s.match] with that pattern, which is not anchored: the first start
    position that gives a match wins.  [None] is JavaScript's [null],
    [Some g] is a match whose group 1 is [g]. *)
Fixpoint matchParenGroup (s : string) : option string :=
  match matchParenGroupAt s with
  | Some g => Some g
  | None =>
      match s with
      | EmptyString => None
      | String _ r => matchParenGroup r
      end
  end.

End Js.


Definition LF : string := String "010" EmptyString.

(** ** Data model *)

(** A theme id as the JSON or YAML parser delivers it: a number (an
    integer, printed by JavaScript in decimal) or a string. *)
Inductive JsId :=
| IdNum (n : Z)
| IdStr (s : string).

(** ['' + id] *)
Definition idToString (i : JsId) : string :=
  match i with
  | IdNum n => NilZero.string_of_int (Z.to_int n)
  | IdStr s => s
  end.

(** An element of [themes]; [updated_at] is the instant the date string
    denotes, in milliseconds. *)
Record Theme := {
  id : JsId;
  name : string;
  role : string;
  updated_at : Z
}.

Inductive Error :=
| TypeError (msg : string)
| Failure (msg : string).

(** The values [buildAndDeploy] is called with. *)
Inductive JsVal :=
| Undefined
| IdVal (i : JsId)
| ThemeVal (t : Theme).

(** [process.env], the three variables the planner reads. *)
Record Env := {
  env_STAGE : option string;
  env_IS_QUICK_TEST : option string;
  env_BASE_THEME : option string
}.

Definition truthy (v : option string) : bool :=
  match v with
  | Some (String _ _) => true
  | _ => false
  end.

(** [process.env.STAGE || 'backup'] *)
Definition STAGE (e : Env) : string :=
  match env_STAGE e with
  | Some (String _ _ as v) => v
  | _ => "backup"
  end.

(** [process.env.IS_QUICK_TEST || false], which the script only tests for
    truthiness. *)
Definition IS_QUICK_TEST (e : Env) : bool := truthy (env_IS_QUICK_TEST e).

(** [process.env.BASE_THEME || false]; [None] is [false]. *)
Definition BASE_THEME (e : Env) : option string :=
  match env_BASE_THEME e with
  | Some (String _ _ as v) => Some v
  | _ => None
  end.

(** What [exec] hands to its callback. *)
Record ExecAnswer := {
  err : option Error;
  stdout : string
}.

(** The answer to the HTTP request and the parse of its body. *)
Inductive ThemesAnswer :=
| HttpFailed (e : Error)
| BadBody (e : Error)
| Body (themes : list Theme).

Record World := {
  tmp_exists : bool;
  rm_before : option Error;
  mkdir_tmp : option Error;
  chdir_tmp : option Error;
  git_branch : ExecAnswer;
  themes_json : ThemesAnswer;
  git_fetch : ExecAnswer;
  git_cherry : ExecAnswer;
  now : Z;
  download : option Error;
  new_theme : option Error;
  tmp_config : Error + option JsId;
  chdir_root : option Error;
  deploy : option Error;
  rm_after : option Error
}.

(** ** Promises with a trace *)

Inductive Event :=
| Log (msg : string)
| ExecRm
| Mkdir
| ChdirTmp
| ExecGitBranch
| HttpGetThemes
| ExecGitFetch
| ExecGitCherry (base : string)
| ThemeKitDownload (themeId : JsId)
| ThemeKitNew
| ReadTmpConfig
| ChdirRoot
| BrrlDeploy (themeId : JsVal).

Inductive Outcome (A : Type) :=
| Resolved (a : A)
| Rejected (e : Error)
| Exited.

Arguments Resolved {A} a.
Arguments Rejected {A} e.
Arguments Exited {A}.

Definition Promise (A : Type) : Type := (list Event * Outcome A)%type.

Definition trace {A} (p : Promise A) : list Event := fst p.
Definition outcome {A} (p : Promise A) : Outcome A := snd p.

Definition resolve {A} (a : A) : Promise A := ([], Resolved a).
Definition reject {A} (e : Error) : Promise A := ([], Rejected e).
Definition emit (ev : Event) : Promise unit := ([ev], Resolved tt).
Definition log (msg : string) : Promise unit := emit (Log msg).

(** [p.then(k)], and equally "run [p], then go on with [k]" inside one
    callback: a rejection or an exit of [p] skips [k]. *)
Definition andThen {A B} (p : Promise A) (k : A -> Promise B) : Promise B :=
  match p with
  | (tr, Resolved a) => let (tr', o) := k a in ((tr ++ tr')%list, o)
  | (tr, Rejected e) => (tr, Rejected e)
  | (tr, Exited) => (tr, Exited)
  end.

Declare Scope promise_scope.
Delimit Scope promise_scope with promise.
Notation "x <- p ;; k" := (andThen p (fun x => k))
  (at level 61, p at next level, right associativity) : promise_scope.
Notation "p ;; k" := (andThen p (fun _ => k))
  (at level 61, right associativity) : promise_scope.
Open Scope promise_scope.

(** An optional error as the result of a call that throws or calls back
    with [err]. *)
Definition check (e : option Error) : Promise unit :=
  match e with
  | Some x => reject x
  | None => resolve tt
  end.

(** [Promise.all] of three promises.  The three operations are started in
    array order and their callbacks interleave; the trace lists the events
    of each operation in array order, and of several rejections the first
    in array order is kept. *)
Definition all3 {A B C} (a : Promise A) (b : Promise B) (c : Promise C)
  : Promise (A * B * C) :=
  ((trace a ++ trace b ++ trace c)%list,
   match outcome a, outcome b, outcome c with
   | Resolved x, Resolved y, Resolved z => Resolved (x, y, z)
   | Rejected e, _, _ => Rejected e
   | _, Rejected e, _ => Rejected e
   | _, _, Rejected e => Rejected e
   | _, _, _ => Exited
   end).

(** The external calls of a trace: everything but [console.log]. *)
Definition isCall (ev : Event) : bool :=
  match ev with
  | Log _ => false
  | _ => true
  end.

Definition calls (tr : list Event) : list Event := filter isCall tr.

(** ** Workspace Preparer (lines 55-73) *)

Definition prepareTmp (e : Env) (w : World) : Promise unit :=
  log "Removing existing tmp directory" ;;
  (if andb (tmp_exists w) (negb (IS_QUICK_TEST e))
   then emit ExecRm ;; check (rm_before w)
   else resolve tt) ;;
  (if negb (IS_QUICK_TEST e)
   then emit Mkdir ;; check (mkdir_tmp w)
   else resolve tt) ;;
  emit ChdirTmp ;; check (chdir_tmp w).

(** ** Branch Inspector (lines 81-102 and 133-152) *)

(** The callback of the [reduce] of line 90.  The accumulator is [false],
    [undefined] or a string; [None] stands for the first two, which are
    both falsy, and the empty string is falsy too. *)
Definition branchStep (found : option string) (branch : string) : option string :=
  match found with
  | Some (String _ _) => found
  | _ =>
      if Js.includes "*" branch
      then Some (Js.trim (Js.removeFirst "* " branch))
      else None
  end.

(** [active] of line 88: a string, or [None] for [undefined]. *)
Definition activeBranch (out : string) : option string :=
  fold_left branchStep (Js.split LF out) None.

(** The text a pattern is tested against when it is given [branch]. *)
Definition branchText (branch : option string) : string :=
  match branch with
  | Some b => b
  | None => "undefined"
  end.

Definition getBranch (w : World) : Promise (option string) :=
  log "Getting current branch" ;;
  emit ExecGitBranch ;;
  check (err (git_branch w)) ;;
  resolve (activeBranch (stdout (git_branch w))).

Definition nonEmpty (s : string) : bool :=
  match s with
  | EmptyString => false
  | String _ _ => true
  end.

(** [commits] of lines 142-147. *)
Definition parseCommits (out : string) : list string :=
  filter nonEmpty (map (fun commit => Js.trim (Js.removeMarker commit)) (Js.split LF out)).

Definition gitBase (branch : option string) : string :=
  if Js.test ["develop"] (branchText branch) then "master" else "develop".

(** Lines 133-152.  The callback of [git fetch] calls [reject] and goes on:
    [git cherry] is run in either case, and its own [err] is not looked
    at. *)
Definition fetchCommits (w : World) (branch : option string) : Promise (list string) :=
  log "Running 'git fetch --all'" ;;
  emit ExecGitFetch ;;
  log ("git 'cherry -v " ++ gitBase branch ++ "'") ;;
  emit (ExecGitCherry (gitBase branch)) ;;
  check (err (git_fetch w)) ;;
  resolve (parseCommits (stdout (git_cherry w))).

(** ** Artifact Lister (lines 110-123) *)

(** [themes.sort] with the comparator of line 120: a stable sort, most
    recently updated first. *)
Fixpoint insertTheme (x : Theme) (l : list Theme) : list Theme :=
  match l with
  | [] => [x]
  | y :: r =>
      if (updated_at y <=? updated_at x)%Z then x :: l else y :: insertTheme x r
  end.

Definition sortThemes (l : list Theme) : list Theme := fold_right insertTheme [] l.

Definition listThemes (w : World) : Promise (list Theme) :=
  emit HttpGetThemes ;;
  match themes_json w with
  | HttpFailed x => reject x
  | BadBody x => log "Existing themes fetched" ;; reject x
  | Body themes => log "Existing themes fetched" ;; resolve (sortThemes themes)
  end.

(** ** Deployment Planner *)

(** A call that returns or throws. *)
Inductive Completion (A : Type) :=
| Normal (v : A)
| Throw (e : Error).

Arguments Normal {A} v.
Arguments Throw {A} e.

(** The two variables bound by [name.split(' - ')] with their defaults. *)
Definition envOf (n : string) : string := nth 0 (Js.split " - " n) "DEV".
Definition commitOf (n : string) : string := nth 1 (Js.split " - " n) "".

(** Lines 227-229. *)
Definition commitToken (n : string) : Completion string :=
  let commit := commitOf n in
  if Js.includes "(" commit
  then match Js.matchParenGroup commit with
       | Some g => Normal g
       | None => Throw (TypeError "Cannot read property '1' of null")
       end
  else Normal commit.

(** [commits.find(str => ~str.indexOf(commit))] read as a condition. *)
Definition commitFound (commit : string) (commits : list string) : bool :=
  match find (fun str => Js.includes commit str) commits with
  | Some str => nonEmpty str
  | None => false
  end.

(** The span [moment().subtract('7', 'Days')] goes back, in milliseconds:
    seven days of 24 hours, as when the local clock has no daylight-saving
    change in between. *)
Definition sevenDays : Z := 7 * 24 * 60 * 60 * 1000.

(** The callback of the [reduce] of line 220. *)
Definition searchStep (now : Z) (commits : list string) (noLessThan7DaysOld : bool)
  (isFound : Completion (option Theme)) (theme : Theme) : Completion (option Theme) :=
  match isFound with
  | Throw x => Throw x
  | Normal (Some found) => Normal (Some found)
  | Normal None =>
      match commitToken (name theme) with
      | Throw x => Throw x
      | Normal commit =>
          if negb (Js.testI ["staging"; "stage"] (envOf (name theme))) then Normal None
          else if negb (commitFound commit commits) then Normal None
          else if andb noLessThan7DaysOld (updated_at theme <? now - sevenDays)%Z
          then Normal None
          else Normal (Some theme)
      end
  end.

(** Lines 219-255; [now] is the clock read by [moment()]. *)
Definition isAlreadyDeployedThemeForBranch (now : Z) (themes : list Theme)
  (branch : option string) (commits : list string) (noLessThan7DaysOld : bool)
  : Completion (option Theme) :=
  fold_left (searchStep now commits noLessThan7DaysOld) themes (Normal None).

(** What a call of [getBase] comes to. *)
Inductive BaseReturn :=
| Threw (e : Error)
| ReturnedBare (found : option Theme)
| ReturnedPromise (theme : Theme)
| ExitedProcess.

(** [/(live|stage)/i.test(_env)] of lines 280 and 286. *)
Definition isLiveOrStage (theme : Theme) : bool :=
  Js.testI ["live"; "stage"] (envOf (name theme)).

Definition noBaseMessage : string :=
  "No base theme could be found. Duplication not possible.".

(** Lines 266-298: what is logged, and what the call comes to. *)
Definition getBase (e : Env) (themes : list Theme) (forcePublished : bool)
  : list Event * BaseReturn :=
  match find (fun theme => role theme =? "main") themes with
  | None => ([], Threw (TypeError "Cannot read property 'name' of undefined"))
  | Some publishedTheme =>
      match BASE_THEME e with
      | Some base =>
          ([], ReturnedBare (find (fun theme => idToString (id theme) =? base) themes))
      | None =>
          if forcePublished then ([], ReturnedPromise publishedTheme)
          else if isLiveOrStage publishedTheme then ([], ReturnedPromise publishedTheme)
          else match find isLiveOrStage themes with
               | Some unpublishedBase => ([], ReturnedPromise unpublishedBase)
               | None => ([Log noBaseMessage], ExitedProcess)
               end
      end
  end.

(** [getBase(...).then(k)] evaluated inside a [then] callback: a throw of
    [getBase] rejects the chain, and so does [.then] on a value that is not
    a promise. *)
Definition thenOfBase {B} (r : list Event * BaseReturn) (k : Theme -> Promise B)
  : Promise B :=
  match snd r with
  | Threw x => (fst r, Rejected x)
  | ReturnedBare (Some _) => (fst r, Rejected (TypeError "getBase(...).then is not a function"))
  | ReturnedBare None => (fst r, Rejected (TypeError "Cannot read property 'then' of undefined"))
  | ReturnedPromise theme => (fst r, Resolved tt) ;; k theme
  | ExitedProcess => (fst r, Exited)
  end.

(** ** Artifact Duplicator (lines 257-264 and 300-335) *)

Definition downloadTheme (e : Env) (w : World) (theme : Theme) : Promise unit :=
  if IS_QUICK_TEST e then resolve tt
  else
    log "Downloading theme" ;;
    log ("Theme Name: " ++ name theme) ;;
    emit (ThemeKitDownload (id theme)) ;;
    match download w with
    | Some _ => reject (Failure "Themekit download failed")
    | None => resolve tt
    end.

Definition idValue (i : option JsId) : JsVal :=
  match i with
  | Some x => IdVal x
  | None => Undefined
  end.

Definition uploadBaseToNewTheme (e : Env) (w : World) : Promise JsVal :=
  (if IS_QUICK_TEST e then resolve tt
   else log "Uploading new theme!" ;; emit ThemeKitNew ;; check (new_theme w)) ;;
  emit ReadTmpConfig ;;
  match tmp_config w with
  | inl x => reject x
  | inr i => resolve (idValue i)
  end.

Definition duplicateCurrentBase (e : Env) (w : World) (themes : list Theme)
  (forcePublished : bool) : Promise JsVal :=
  thenOfBase (getBase e themes forcePublished) (fun theme => downloadTheme e w theme) ;;
  uploadBaseToNewTheme e w.

(** ** Deploy Trigger (lines 337-348) *)

Definition buildAndDeploy (w : World) (themeId : JsVal) : Promise unit :=
  emit ChdirRoot ;;
  check (chdir_root w) ;;
  emit (BrrlDeploy themeId) ;;
  check (deploy w).

(** ** The planner's dispatch (lines 154-204) *)

Definition mainRoutine (e : Env) (w : World) (branch : option string)
  (themes : list Theme) (commits : list string) : Promise unit :=
  log "Running main routine" ;;
  if Js.testI ["feature"; "hotfix"; "bugfix"; "develop"] (branchText branch) then
    themeID <-
      match isAlreadyDeployedThemeForBranch (now w) themes branch commits
              (Js.test ["develop"] (branchText branch)) with
      | Throw x => reject x
      | Normal (Some existingTheme) =>
          log "Existing base found!" ;;
          log ("Theme Name: " ++ name existingTheme) ;;
          resolve (IdVal (id existingTheme))
      | Normal None =>
          log "No existing base found" ;;
          duplicateCurrentBase e w themes false
      end ;;
    buildAndDeploy w themeID
  else if andb (Js.testI ["master"] (branchText branch)) (STAGE e =? "backup") then
    duplicateCurrentBase e w themes true ;; resolve tt
  else if andb (Js.testI ["master"] (branchText branch)) (STAGE e =? "deploy") then
    thenOfBase (getBase e themes true) (fun themeID => buildAndDeploy w (ThemeVal themeID))
  else resolve tt.

(** ** Cleanup (lines 204-217) *)

Definition cleanup (e : Env) (w : World) : Promise unit :=
  if IS_QUICK_TEST e then resolve tt
  else log "Removing tmp directory" ;; emit ExecRm ;; check (rm_after w).

(** ** The whole chain (lines 48-217) *)

Definition run (e : Env) (w : World) : Promise unit :=
  joined <- all3 (prepareTmp e w) (getBranch w) (listThemes w) ;;
  let '(_, branch, themes) := joined in
  commits <- fetchCommits w branch ;;
  mainRoutine e w branch themes commits ;;
  cleanup e w.

(** ** The two ways out of lines 176-186 *)

(** Lines 177-181 and 185: an existing staging theme was found. *)
Definition deployExisting (w : World) (existingTheme : Theme) : Promise unit :=
  log "Running main routine" ;;
  themeID <-
    (log "Existing base found!" ;;
     log ("Theme Name: " ++ name existingTheme) ;;
     resolve (IdVal (id existingTheme))) ;;
  buildAndDeploy w themeID.

(** Lines 182-185: none was found. *)
Definition duplicateAndDeploy (e : Env) (w : World) (themes : list Theme) : Promise unit :=
  log "Running main routine" ;;
  themeID <-
    (log "No existing base found" ;;
     duplicateCurrentBase e w themes false) ;;
  buildAndDeploy w themeID.

(** ** Vocabulary for the properties of quick-test mode *)

(** The calls that create or delete something outside the process and that
    the source guards by [IS_QUICK_TEST]. *)
Definition quickSkips (ev : Event) : bool :=
  match ev with
  | ExecRm | Mkdir | ThemeKitDownload _ | ThemeKitNew => true
  | _ => false
  end.

Definition kept (ev : Event) : bool := negb (quickSkips ev).

(** [q] ends as [n] does, and calls what [n] calls apart from the guarded
    calls. *)
Definition sameButSkipped {A} (q n : Promise A) : Prop :=
  outcome q = outcome n /\ calls (trace q) = filter kept (calls (trace n)).

(** ** Sample inputs, used to instantiate the properties below *)

Module Sample.

Definition day : Z := 24 * 60 * 60 * 1000.

Definition mkEnv (stage quick base : option string) : Env :=
  {| env_STAGE := stage; env_IS_QUICK_TEST := quick; env_BASE_THEME := base |}.

Definition plainEnv : Env := mkEnv None None None.
Definition quickEnv : Env := mkEnv None (Some "1") None.
Definition deployEnv : Env := mkEnv (Some "deploy") None None.
Definition idleEnv : Env := mkEnv (Some "verify") None None.
Definition base123Env : Env := mkEnv None None (Some "123").

Definition mkTheme (i : Z) (n r : string) (u : Z) : Theme :=
  {| id := IdNum i; name := n; role := r; updated_at := u |}.

Definition live : Theme := mkTheme 1 "LIVE - shop" "main" (50 * day).
Definition devMain : Theme := mkTheme 2 "DEV - x" "main" (60 * day).
Definition stageY : Theme := mkTheme 3 "STAGE - y" "other" (55 * day).
Definition devOther : Theme := mkTheme 4 "DEV - z" "unpublished" (40 * day).
Definition bareStage : Theme := mkTheme 5 "STAGE" "unpublished" (99 * day).
Definition staged (u : Z) : Theme := mkTheme 7 "STAGE - fix-bug (abc123)" "unpublished" u.
Definition theme123 (r : string) : Theme := mkTheme 123 "DEV - anything" r (10 * day).
Definition unclosed : Theme := mkTheme 8 "DEV - wip (abc" "unpublished" (98 * day).
Definition theme123s : Theme :=
  {| id := IdStr "123"; name := "whatever"; role := "unpublished"; updated_at := 0 |}.

Definition silent (out : string) : ExecAnswer := {| err := None; stdout := out |}.
Definition failed (msg out : string) : ExecAnswer :=
  {| err := Some (Failure msg); stdout := out |}.

Definition cherryOut : string := "+ abc1234def fix the header" ++ LF.

(** A world in which every external call succeeds; the clock reads day
    100 and the creation step leaves id 999 in the scratch config. *)
Definition calm (themes : list Theme) : World :=
  {| tmp_exists := true;
     rm_before := None;
     mkdir_tmp := None;
     chdir_tmp := None;
     git_branch := silent ("  develop" ++ LF ++ "* feature/header" ++ LF);
     themes_json := Body themes;
     git_fetch := silent "";
     git_cherry := silent cherryOut;
     now := 100 * day;
     download := None;
     new_theme := None;
     tmp_config := inr (Some (IdNum 999));
     chdir_root := None;
     deploy := None;
     rm_after := None |}.

(** The same world, except that [git cherry] exits with status 128 and
    prints nothing on its standard output. *)
Definition cherryFails (themes : list Theme) : World :=
  {| tmp_exists := true;
     rm_before := None;
     mkdir_tmp := None;
     chdir_tmp := None;
     git_branch := silent ("  develop" ++ LF ++ "* feature/header" ++ LF);
     themes_json := Body themes;
     git_fetch := silent "";
     git_cherry := failed "Command failed: git cherry -v develop" "";
     now := 100 * day;
     download := None;
     new_theme := None;
     tmp_config := inr (Some (IdNum 999));
     chdir_root := None;
     deploy := None;
     rm_after := None |}.

(** The calm world, except that the deploy command fails, and except that
    [git fetch] fails. *)
Definition deployFails (themes : list Theme) : World :=
  {| tmp_exists := true;
     rm_before := None;
     mkdir_tmp := None;
     chdir_tmp := None;
     git_branch := silent ("  develop" ++ LF ++ "* feature/header" ++ LF);
     themes_json := Body themes;
     git_fetch := silent "";
     git_cherry := silent cherryOut;
     now := 100 * day;
     download := None;
     new_theme := None;
     tmp_config := inr (Some (IdNum 999));
     chdir_root := None;
     deploy := Some (Failure "deploy failed");
     rm_after := None |}.

Definition fetchFails (themes : list Theme) : World :=
  {| tmp_exists := false;
     rm_before := None;
     mkdir_tmp := None;
     chdir_tmp := None;
     git_branch := silent ("* develop" ++ LF);
     themes_json := Body themes;
     git_fetch := failed "Command failed: git fetch --all" "";
     git_cherry := silent cherryOut;
     now := 100 * day;
     download := None;
     new_theme := None;
     tmp_config := inr (Some (IdNum 999));
     chdir_root := None;
     deploy := None;
     rm_after := None |}.

(** The calm world, except that the download fails. *)
Definition downloadFails (themes : list Theme) : World :=
  {| tmp_exists := true;
     rm_before := None;
     mkdir_tmp := None;
     chdir_tmp := None;
     git_branch := silent ("  develop" ++ LF ++ "* feature/header" ++ LF);
     themes_json := Body themes;
     git_fetch := silent "";
     git_cherry := silent cherryOut;
     now := 100 * day;
     download := Some (Failure "401 Unauthorized");
     new_theme := None;
     tmp_config := inr (Some (IdNum 999));
     chdir_root := None;
     deploy := None;
     rm_after := None |}.

End Sample.

(** ** Vocabulary for the properties of the whole script *)

Definition CR : string := String "013" EmptyString.

(** [s] has no line terminator. *)
Definition oneLine (s : string) : Prop :=
  Js.includes LF s = false /\ Js.includes CR s = false.

(** Most recently updated first. *)
Definition newerFirst (a b : Theme) : Prop := (updated_at b <= updated_at a)%Z.

Definition updatedAt (d : Z) (t : Theme) : bool := (updated_at t =? d)%Z.

Definition isDeploy (ev : Event) : bool :=
  match ev with
  | BrrlDeploy _ => true
  | _ => false
  end.

Definition isThemeKit (ev : Event) : bool :=
  match ev with
  | ThemeKitDownload _ | ThemeKitNew => true
  | _ => false
  end.

(** [s] does not start with white space. *)
Definition startsClean (s : string) : bool :=
  match s with
  | EmptyString => true
  | String c _ => negb (Js.isSpace c)
  end.

(** * Properties *)

(** ** Strings *)

Section StringFacts.

Lemma includes_empty (s : string) : Js.includes "" s = true.
Proof. destruct s; reflexivity. Qed.

Lemma includes_cons (needle : string) (c : ascii) (s : string) :
  Js.includes needle (String c s) = false ->
  Js.startsWith needle (String c s) = false /\ Js.includes needle s = false.
Proof.
  cbn [Js.includes].
  destruct (Js.startsWith needle (String c s)); [discriminate | auto].
Qed.

(** Without an occurrence of the separator, [split] returns the string as
    its only piece. *)
Lemma splitAux_no_sep (sep s cur : string) :
  Js.includes sep s = false ->
  Js.splitAux sep s 0 cur = [Js.revOnto cur s].
Proof.
  revert cur.
  induction s as [|c r IH]; intros cur H.
  - reflexivity.
  - apply includes_cons in H as [Hp Hr].
    cbn [Js.splitAux]. rewrite Hp.
    rewrite (IH (String c cur) Hr). reflexivity.
Qed.

Lemma split_no_sep (sep s : string) :
  Js.includes sep s = false -> Js.split sep s = [s].
Proof. intros H. unfold Js.split. now rewrite splitAux_no_sep. Qed.

End StringFacts.

(** ** Name parsing *)

Lemma envOf_no_sep (n : string) :
  Js.includes " - " n = false -> envOf n = n.
Proof. intros H. unfold envOf. now rewrite split_no_sep. Qed.

Lemma commitOf_no_sep (n : string) :
  Js.includes " - " n = false -> commitOf n = "".
Proof. intros H. unfold commitOf. now rewrite split_no_sep. Qed.

Lemma commitToken_no_sep (n : string) :
  Js.includes " - " n = false -> commitToken n = Normal "".
Proof.
  intros H. unfold commitToken. rewrite (commitOf_no_sep _ H). reflexivity.
Qed.

(** ** The staging-artifact search *)

Section Search.

Variables (now : Z) (commits : list string) (noLess : bool).

Local Abbreviation step := (searchStep now commits noLess).

Lemma search_found_stays (found : Theme) (l : list Theme) :
  fold_left step l (Normal (Some found)) = Normal (Some found).
Proof. induction l as [|t l IH]; [reflexivity | exact IH]. Qed.

Lemma search_thrown_stays (x : Error) (l : list Theme) :
  fold_left step l (Throw x) = Throw x.
Proof. induction l as [|t l IH]; [reflexivity | exact IH]. Qed.

(** The search over [pre ++ t :: post] when nothing of [pre] qualifies goes
    on from what the callback says of [t]. *)
Lemma search_app (pre post : list Theme) (t : Theme) (branch : option string) :
  isAlreadyDeployedThemeForBranch now pre branch commits noLess = Normal None ->
  isAlreadyDeployedThemeForBranch now (pre ++ t :: post) branch commits noLess
  = fold_left step post (step (Normal None) t).
Proof.
  unfold isAlreadyDeployedThemeForBranch. intros H.
  rewrite fold_left_app, H. reflexivity.
Qed.

End Search.

Lemma commitFound_empty_token (commits : list string) :
  commits <> [] ->
  (forall c, In c commits -> nonEmpty c = true) ->
  commitFound "" commits = true.
Proof.
  intros Hne Hall. destruct commits as [|c r]; [contradiction|].
  unfold commitFound. cbn [find]. rewrite includes_empty.
  apply Hall. now left.
Qed.

(** The commit lists the Branch Inspector produces have no empty entry. *)
Lemma parseCommits_nonEmpty (out c : string) :
  In c (parseCommits out) -> nonEmpty c = true.
Proof. unfold parseCommits. intros H. apply filter_In in H. tauto. Qed.

(** ** The dispatch of the planner *)

Section Dispatch.

Variables (e : Env) (w : World) (branch : option string)
          (themes : list Theme) (commits : list string).

Local Abbreviation pathA := (Js.testI ["feature"; "hotfix"; "bugfix"; "develop"] (branchText branch)).
Local Abbreviation search :=
  (isAlreadyDeployedThemeForBranch (now w) themes branch commits
     (Js.test ["develop"] (branchText branch))).

Lemma mainRoutine_no_existing :
  pathA = true -> search = Normal None ->
  mainRoutine e w branch themes commits = duplicateAndDeploy e w themes.
Proof.
  intros Hb Hs. unfold mainRoutine, duplicateAndDeploy. rewrite Hb, Hs. reflexivity.
Qed.

Lemma mainRoutine_existing (t : Theme) :
  pathA = true -> search = Normal (Some t) ->
  mainRoutine e w branch themes commits = deployExisting w t.
Proof.
  intros Hb Hs. unfold mainRoutine, deployExisting. rewrite Hb, Hs. reflexivity.
Qed.

End Dispatch.

(** A branch name matching feature, hotfix or bugfix takes the first
    branch of the dispatch. *)
Lemma feature_is_pathA (b : string) :
  Js.testI ["feature"; "hotfix"; "bugfix"] b = true ->
  Js.testI ["feature"; "hotfix"; "bugfix"; "develop"] b = true.
Proof.
  unfold Js.testI. cbn [existsb]. intros H.
  repeat (apply orb_true_iff in H as [H|H]; [rewrite H; auto with bool|]).
  discriminate.
Qed.

(** ** Pieces of a split contain only characters of the string *)

Section CharFacts.

Variable c : ascii.

Local Abbreviation has := (Js.includes (String c EmptyString)).

Lemma has_cons (d : ascii) (s : string) :
  has (String d s) = orb (Ascii.eqb c d) (has s).
Proof.
  cbn [Js.includes Js.startsWith].
  destruct (Ascii.eqb c d); reflexivity.
Qed.

Lemma has_revOnto (s acc : string) :
  has s = false -> has acc = false -> has (Js.revOnto s acc) = false.
Proof.
  revert acc. induction s as [|d r IH]; intros acc Hs Ha; [exact Ha|].
  rewrite has_cons in Hs. apply orb_false_iff in Hs as [Hd Hr].
  cbn [Js.revOnto]. apply IH; [exact Hr|].
  rewrite has_cons, Hd. exact Ha.
Qed.

Lemma has_splitAux (sep s : string) (skip : nat) (cur : string) :
  has s = false -> has cur = false ->
  Forall (fun piece => has piece = false) (Js.splitAux sep s skip cur).
Proof.
  revert skip cur. induction s as [|d r IH]; intros skip cur Hs Hc.
  - repeat constructor. now apply has_revOnto.
  - rewrite has_cons in Hs. apply orb_false_iff in Hs as [Hd Hr].
    cbn [Js.splitAux]. destruct skip as [|k].
    + destruct (Js.startsWith sep (String d r)).
      * constructor; [now apply has_revOnto | now apply IH].
      * apply IH; [exact Hr|]. rewrite has_cons, Hd. exact Hc.
    + now apply IH.
Qed.

Lemma has_commitOf (n : string) : has n = false -> has (commitOf n) = false.
Proof.
  intros H. unfold commitOf, Js.split.
  pose proof (has_splitAux " - " n 0 EmptyString H eq_refl) as HF.
  rewrite Forall_forall in HF.
  destruct (nth_in_or_default 1 (Js.splitAux " - " n 0 EmptyString) "") as [Hin|Hd].
  - now apply HF.
  - rewrite Hd. reflexivity.
Qed.

End CharFacts.

(** C5 (as amended).  The name [STAGE - fix-bug (abc123)] yields the
    environment tag [STAGE] and the commit token [abc123].  A name without
    the separator [" - "] yields the empty token, and a name without an
    opening parenthesis yields as token the second piece of the split,
    unchanged. *)
Theorem name_parsing :
  envOf "STAGE - fix-bug (abc123)" = "STAGE" /\
  commitToken "STAGE - fix-bug (abc123)" = Normal "abc123" /\
  (forall n, Js.includes " - " n = false -> commitToken n = Normal "") /\
  (forall n, Js.includes "(" n = false -> commitToken n = Normal (commitOf n)).
Proof.
  split; [reflexivity|]. split; [reflexivity|]. split.
  - exact commitToken_no_sep.
  - intros n H. unfold commitToken. now rewrite (has_commitOf "("%char n H).
Qed.

Lemma name_parsing_witness :
  Js.includes " - " "STAGE" = false /\
  commitToken "STAGE" = Normal "" /\
  Js.includes "(" "STAGE - fix-bug" = false /\
  commitToken "STAGE - fix-bug" = Normal (commitOf "STAGE - fix-bug").
Proof.
  destruct name_parsing as (_ & _ & H1 & H2).
  split; [reflexivity|]. split; [apply H1; reflexivity|].
  split; [reflexivity|]. apply H2. reflexivity.
Defined.

(** C5 as stated fails: [STAGE - fix-bug] has no parenthesized segment and
    its commit token is [fix-bug], not the empty string. *)
Lemma name_without_parens_keeps_label :
  Js.includes "(" "STAGE - fix-bug" = false /\
  Js.includes ")" "STAGE - fix-bug" = false /\
  commitToken "STAGE - fix-bug" = Normal "fix-bug" /\
  commitToken "STAGE - fix-bug" <> Normal "".
Proof.
  repeat split; try reflexivity. discriminate.
Qed.

(** ** The search on a theme whose name has no separator *)

(** C10.  For every non-empty commit list (of non-empty messages, as the
    Branch Inspector produces them), a theme whose name has no [" - "]
    separator and matches stage/staging as a whole is the result of the
    search as soon as no theme before it qualifies, the freshness check
    being the only further condition when it is asked for: its commit
    token is the empty string, which every commit message contains. *)
Theorem separatorless_stage_name_is_selected
  (now : Z) (pre post : list Theme) (t : Theme) (branch : option string)
  (commits : list string) (noLessThan7DaysOld : bool) :
  Js.includes " - " (name t) = false ->
  Js.testI ["staging"; "stage"] (name t) = true ->
  commits <> [] ->
  (forall c, In c commits -> nonEmpty c = true) ->
  (noLessThan7DaysOld = true -> (now - sevenDays <= updated_at t)%Z) ->
  isAlreadyDeployedThemeForBranch now pre branch commits noLessThan7DaysOld = Normal None ->
  commitToken (name t) = Normal "" /\
  commitFound "" commits = true /\
  isAlreadyDeployedThemeForBranch now (pre ++ t :: post) branch commits noLessThan7DaysOld
  = Normal (Some t).
Proof.
  intros Hsep Henv Hne Hall Hfresh Hpre.
  pose proof (commitToken_no_sep _ Hsep) as Htok.
  pose proof (commitFound_empty_token _ Hne Hall) as Hfound.
  split; [exact Htok|]. split; [exact Hfound|].
  rewrite (search_app _ _ _ _ _ _ _ Hpre).
  replace (searchStep now commits noLessThan7DaysOld (Normal None) t)
    with (Normal (Some t)); [apply search_found_stays|].
  unfold searchStep. rewrite Htok, (envOf_no_sep _ Hsep), Henv, Hfound.
  cbn [negb]. destruct noLessThan7DaysOld; [|reflexivity].
  specialize (Hfresh eq_refl). cbn [andb].
  destruct (Z.ltb_spec (updated_at t) (now - sevenDays)); [lia | reflexivity].
Qed.

Lemma separatorless_stage_name_is_selected_witness :
  isAlreadyDeployedThemeForBranch (100 * Sample.day)%Z
    ([Sample.live; Sample.devOther] ++ Sample.bareStage :: [Sample.stageY])
    (Some "develop") (parseCommits Sample.cherryOut) true
  = Normal (Some Sample.bareStage).
Proof.
  refine (proj2 (proj2 (separatorless_stage_name_is_selected (100 * Sample.day)%Z
            [Sample.live; Sample.devOther] [Sample.stageY] Sample.bareStage
            (Some "develop") (parseCommits Sample.cherryOut) true _ _ _ _ _ _))).
  - reflexivity.
  - reflexivity.
  - discriminate.
  - intros c Hc. exact (parseCommits_nonEmpty _ _ Hc).
  - intros _. vm_compute. discriminate.
  - reflexivity.
Defined.

(** ** What the two ways out of Path A call *)

Lemma calls_app (a b : list Event) : calls (a ++ b) = (calls a ++ calls b)%list.
Proof. apply filter_app. Qed.

Lemma deployExisting_calls (w : World) (t : Theme) :
  calls (trace (deployExisting w t))
  = ChdirRoot :: match chdir_root w with
                 | Some _ => []
                 | None => [BrrlDeploy (IdVal (id t))]
                 end.
Proof.
  unfold deployExisting, buildAndDeploy.
  destruct (chdir_root w), (deploy w); reflexivity.
Qed.

(** ** The freshness check on develop *)

(** C2.  On branch [develop], take a staging theme whose commit token is
    found in the commit list and that no theme of the list precedes as a
    match.  Updated more than seven days ago, it is passed over: the search
    goes on with the themes after it and, when none of them qualifies, the
    planner duplicates.  The same theme updated within the last seven days
    is the result of the search and the planner deploys to its id. *)
Theorem develop_freshness
  (e : Env) (w : World) (pre post : list Theme) (commits : list string)
  (i : JsId) (n r token : string) (old recent : Z) :
  let stale := {| id := i; name := n; role := r; updated_at := old |} in
  let fresh := {| id := i; name := n; role := r; updated_at := recent |} in
  let search themes :=
    isAlreadyDeployedThemeForBranch (now w) themes (Some "develop") commits true in
  Js.testI ["staging"; "stage"] (envOf n) = true ->
  commitToken n = Normal token ->
  commitFound token commits = true ->
  search pre = Normal None ->
  (old < now w - sevenDays)%Z ->
  (now w - sevenDays <= recent)%Z ->
  (search (pre ++ stale :: post)%list = search post /\
   (search post = Normal None ->
    mainRoutine e w (Some "develop") (pre ++ stale :: post) commits
    = duplicateAndDeploy e w (pre ++ stale :: post))) /\
  (search (pre ++ fresh :: post)%list = Normal (Some fresh) /\
   mainRoutine e w (Some "develop") (pre ++ fresh :: post) commits
   = deployExisting w fresh /\
   calls (trace (mainRoutine e w (Some "develop") (pre ++ fresh :: post) commits))
   = ChdirRoot :: match chdir_root w with
                  | Some _ => []
                  | None => [BrrlDeploy (IdVal i)]
                  end).
Proof.
  intros stale fresh search Henv Htok Hfound Hpre Hold Hrecent.
  assert (Hstale : search (pre ++ stale :: post)%list = search post).
  { unfold search. rewrite (search_app _ _ _ _ _ _ _ Hpre).
    unfold searchStep at 2. cbn [name updated_at stale].
    rewrite Htok, Henv, Hfound. cbn [negb andb].
    destruct (Z.ltb_spec old (now w - sevenDays)); [reflexivity | lia]. }
  assert (Hfresh : search (pre ++ fresh :: post)%list = Normal (Some fresh)).
  { unfold search. rewrite (search_app _ _ _ _ _ _ _ Hpre).
    unfold searchStep at 2. cbn [name updated_at fresh].
    rewrite Htok, Henv, Hfound. cbn [negb andb].
    destruct (Z.ltb_spec recent (now w - sevenDays)); [lia|].
    apply search_found_stays. }
  assert (Hmain : mainRoutine e w (Some "develop") (pre ++ fresh :: post) commits
                  = deployExisting w fresh).
  { apply mainRoutine_existing; [reflexivity | exact Hfresh]. }
  split; [split; [exact Hstale|] | split; [exact Hfresh | split; [exact Hmain|]]].
  - intros Hpost. apply mainRoutine_no_existing; [reflexivity|].
    change (search (pre ++ stale :: post)%list = Normal None). now rewrite Hstale.
  - rewrite Hmain. apply deployExisting_calls.
Qed.

Lemma develop_freshness_witness :
  let w := Sample.calm [] in
  let commits := parseCommits Sample.cherryOut in
  let themes u := [Sample.live; Sample.staged u; Sample.devOther] in
  (* updated 8 days ago *)
  isAlreadyDeployedThemeForBranch (now w) (themes (92 * Sample.day)%Z)
    (Some "develop") commits true = Normal None /\
  mainRoutine Sample.plainEnv w (Some "develop") (themes (92 * Sample.day)%Z) commits
  = duplicateAndDeploy Sample.plainEnv w (themes (92 * Sample.day)%Z) /\
  (* updated 6 days ago *)
  isAlreadyDeployedThemeForBranch (now w) (themes (94 * Sample.day)%Z)
    (Some "develop") commits true = Normal (Some (Sample.staged (94 * Sample.day)%Z)) /\
  calls (trace (mainRoutine Sample.plainEnv w (Some "develop")
                  (themes (94 * Sample.day)%Z) commits))
  = [ChdirRoot; BrrlDeploy (IdVal (IdNum 7))].
Proof.
  intros w commits themes.
  destruct (develop_freshness Sample.plainEnv w [Sample.live] [Sample.devOther] commits
              (IdNum 7) "STAGE - fix-bug (abc123)" "unpublished" "abc123"
              (92 * Sample.day)%Z (94 * Sample.day)%Z)
    as [[Hs Hd] [Hf [_ Hc]]].
  - reflexivity.
  - reflexivity.
  - reflexivity.
  - reflexivity.
  - vm_compute. reflexivity.
  - vm_compute. discriminate.
  - split; [exact (eq_trans Hs eq_refl)|].
    split; [exact (Hd eq_refl)|].
    split; [exact Hf | exact Hc].
Defined.

(** ** Base selection *)

Lemma find_first {A} (f : A -> bool) (pre post : list A) (x : A) :
  Forall (fun y => f y = false) pre -> f x = true ->
  find f (pre ++ x :: post) = Some x.
Proof.
  intros Hpre Hx. induction Hpre as [|y pre Hy _ IH]; cbn [app find].
  - now rewrite Hx.
  - now rewrite Hy.
Qed.

Lemma find_none {A} (f : A -> bool) (l : list A) :
  Forall (fun y => f y = false) l -> find f l = None.
Proof.
  intros H. induction H as [|y l Hy _ IH]; cbn [find]; [reflexivity|].
  now rewrite Hy.
Qed.

(** C3.  No explicit base id, [forcePublished] not requested, the published
    theme's tag neither live nor stage: [getBase] resolves with the first
    theme of the list whose tag is live or stage, which is not the
    published one.  For the two-element list of the claim this is the
    [STAGE - y] theme. *)
Theorem base_falls_back_to_first_live_or_stage
  (e : Env) (pre post : list Theme) (published u : Theme) :
  BASE_THEME e = None ->
  find (fun theme => role theme =? "main") (pre ++ u :: post) = Some published ->
  isLiveOrStage published = false ->
  Forall (fun theme => isLiveOrStage theme = false) pre ->
  isLiveOrStage u = true ->
  getBase e (pre ++ u :: post) false = ([], ReturnedPromise u) /\
  u <> published /\
  (forall i1 i2 d1 d2,
     getBase e [ {| id := i1; name := "DEV - x"; role := "main"; updated_at := d1 |};
                 {| id := i2; name := "STAGE - y"; role := "other"; updated_at := d2 |} ]
             false
     = ([], ReturnedPromise
              {| id := i2; name := "STAGE - y"; role := "other"; updated_at := d2 |})).
Proof.
  intros Hbase Hmain Hpub Hpre Hu. split; [|split].
  - unfold getBase. rewrite Hmain, Hbase, Hpub.
    now rewrite (find_first _ _ _ _ Hpre Hu).
  - intros ->. congruence.
  - intros i1 i2 d1 d2. unfold getBase. cbn [find role].
    change ("main" =? "main") with true. cbv iota. rewrite Hbase. reflexivity.
Qed.

Lemma base_falls_back_to_first_live_or_stage_witness :
  (* the list of the claim *)
  getBase Sample.plainEnv ([Sample.devMain] ++ Sample.stageY :: []) false
  = ([], ReturnedPromise Sample.stageY) /\
  (* a longer list, with a LIVE theme after the STAGE one *)
  getBase Sample.plainEnv ([Sample.devMain; Sample.devOther] ++ Sample.stageY :: [Sample.live])
          false
  = ([], ReturnedPromise Sample.stageY).
Proof.
  split.
  - refine (proj1 (base_falls_back_to_first_live_or_stage Sample.plainEnv
                     [Sample.devMain] [] Sample.devMain Sample.stageY _ _ _ _ _)).
    + reflexivity.
    + reflexivity.
    + reflexivity.
    + repeat constructor.
    + reflexivity.
  - refine (proj1 (base_falls_back_to_first_live_or_stage Sample.plainEnv
                     [Sample.devMain; Sample.devOther] [Sample.live]
                     Sample.devMain Sample.stageY _ _ _ _ _)).
    + reflexivity.
    + reflexivity.
    + reflexivity.
    + repeat constructor.
    + reflexivity.
Defined.

(** C4 (as amended).  With an explicit base id configured and a published
    theme in the list, [getBase] returns the first theme of the list whose
    id, as a string, is the configured one, whatever its role, its name and
    the [forcePublished] flag; a numeric id is compared through its decimal
    notation. *)
Theorem explicit_base_is_returned
  (e : Env) (base : string) (forcePublished : bool)
  (pre post : list Theme) (t published : Theme) :
  BASE_THEME e = Some base ->
  find (fun theme => role theme =? "main") (pre ++ t :: post) = Some published ->
  idToString (id t) = base ->
  Forall (fun theme => idToString (id theme) <> base) pre ->
  getBase e (pre ++ t :: post) forcePublished = ([], ReturnedBare (Some t)).
Proof.
  intros Hbase Hmain Hid Hpre. unfold getBase. rewrite Hmain, Hbase.
  rewrite (find_first (fun theme => idToString (id theme) =? base) pre post t);
    [reflexivity | | now apply String.eqb_eq].
  eapply Forall_impl; [|exact Hpre]. intros x Hx. now apply String.eqb_neq.
Qed.

Lemma explicit_base_is_returned_witness :
  (* a numeric id, an unpublished DEV theme, forcePublished requested *)
  getBase Sample.base123Env
    ([Sample.live; Sample.stageY] ++ Sample.theme123 "unpublished" :: [Sample.devOther]) true
  = ([], ReturnedBare (Some (Sample.theme123 "unpublished"))) /\
  (* a string id *)
  getBase Sample.base123Env ([Sample.live] ++ Sample.theme123s :: []) false
  = ([], ReturnedBare (Some Sample.theme123s)).
Proof.
  split.
  - apply (explicit_base_is_returned Sample.base123Env "123" true
             [Sample.live; Sample.stageY] [Sample.devOther]
             (Sample.theme123 "unpublished") Sample.live).
    + reflexivity.
    + reflexivity.
    + reflexivity.
    + repeat constructor; vm_compute; discriminate.
  - apply (explicit_base_is_returned Sample.base123Env "123" false
             [Sample.live] [] Sample.theme123s Sample.live).
    + reflexivity.
    + reflexivity.
    + reflexivity.
    + repeat constructor; vm_compute; discriminate.
Defined.

(** C4 as stated fails: the list holds a theme with the configured id, but
    no published theme, and [getBase] throws at line 268, before it looks
    at the configured id. *)
Lemma explicit_base_needs_a_published_theme :
  let themes := [Sample.devOther; Sample.theme123 "unpublished"] in
  BASE_THEME Sample.base123Env = Some "123" /\
  In (Sample.theme123 "unpublished") themes /\
  idToString (id (Sample.theme123 "unpublished")) = "123" /\
  forall forcePublished,
    getBase Sample.base123Env themes forcePublished
    = ([], Threw (TypeError "Cannot read property 'name' of undefined")).
Proof.
  cbv zeta. repeat split; try reflexivity.
  right; left; reflexivity.
Qed.

(** [getBase] logs nothing, except before it exits. *)
Lemma getBase_trace (e : Env) (themes : list Theme) (forcePublished : bool) :
  fst (getBase e themes forcePublished)
  = match snd (getBase e themes forcePublished) with
    | ExitedProcess => [Log noBaseMessage]
    | _ => []
    end.
Proof.
  unfold getBase.
  destruct (find (fun theme => role theme =? "main") themes) as [p|]; [|reflexivity].
  destruct (BASE_THEME e); [reflexivity|].
  destruct forcePublished; [reflexivity|].
  destruct (isLiveOrStage p); [reflexivity|].
  destruct (find isLiveOrStage themes); reflexivity.
Qed.

(** The base selection reads the configured base id and nothing else of
    the environment. *)
Lemma getBase_env (e e' : Env) (themes : list Theme) (forcePublished : bool) :
  BASE_THEME e = BASE_THEME e' ->
  getBase e themes forcePublished = getBase e' themes forcePublished.
Proof. intros H. unfold getBase. now rewrite H. Qed.

(** ** Promise chains *)

Lemma andThen_resolved {A B} (p : Promise A) (k : A -> Promise B) (a : A) :
  outcome p = Resolved a ->
  andThen p k = ((trace p ++ trace (k a))%list, outcome (k a)).
Proof.
  destruct p as [tr o]. cbn. intros ->. cbn. now destruct (k a).
Qed.

Lemma andThen_rejected {A B} (p : Promise A) (k : A -> Promise B) (x : Error) :
  outcome p = Rejected x -> andThen p k = (trace p, Rejected x).
Proof. destruct p as [tr o]. cbn. now intros ->. Qed.

Lemma andThen_exited {A B} (p : Promise A) (k : A -> Promise B) :
  outcome p = Exited -> andThen p k = (trace p, Exited).
Proof. destruct p as [tr o]. cbn. now intros ->. Qed.

(** ** The fatal base-selection failure *)

(** C9.  No explicit base id, [forcePublished] not set, a published theme
    whose tag, like that of every theme of the list, is neither live nor
    stage: [getBase] logs the error and the process exits.  Nothing is
    rejected: whatever was chained on the call is dropped, and on the path
    that calls [getBase] this way the planner, and the whole run once it has
    reached the planner, end on that log: the removal of the scratch
    directory is not reached. *)
Theorem no_base_exits_the_process
  (e : Env) (themes : list Theme) (published : Theme) :
  BASE_THEME e = None ->
  find (fun theme => role theme =? "main") themes = Some published ->
  Forall (fun theme => isLiveOrStage theme = false) themes ->
  getBase e themes false = ([Log noBaseMessage], ExitedProcess) /\
  (forall B (k : Theme -> Promise B),
     thenOfBase (getBase e themes false) k = ([Log noBaseMessage], Exited)) /\
  (forall w branch commits,
     Js.testI ["feature"; "hotfix"; "bugfix"; "develop"] (branchText branch) = true ->
     isAlreadyDeployedThemeForBranch (now w) themes branch commits
       (Js.test ["develop"] (branchText branch)) = Normal None ->
     mainRoutine e w branch themes commits ;; cleanup e w
     = ([Log "Running main routine"; Log "No existing base found"; Log noBaseMessage],
        Exited) /\
     (forall u,
        outcome (all3 (prepareTmp e w) (getBranch w) (listThemes w))
        = Resolved (u, branch, themes) ->
        outcome (fetchCommits w branch) = Resolved commits ->
        outcome (run e w) = Exited /\
        exists before,
          trace (run e w)
          = (before ++ [Log "Running main routine"; Log "No existing base found";
                        Log noBaseMessage])%list)).
Proof.
  intros Hbase Hmain Hall.
  assert (Hg : getBase e themes false = ([Log noBaseMessage], ExitedProcess)).
  { unfold getBase. rewrite Hmain, Hbase.
    assert (Hp : isLiveOrStage published = false).
    { apply find_some in Hmain as [Hin _].
      rewrite Forall_forall in Hall. now apply Hall. }
    rewrite Hp. now rewrite (find_none _ _ Hall). }
  split; [exact Hg|]. split.
  - intros B k. now rewrite Hg.
  - intros w branch commits Hb Hs.
    assert (Hend : mainRoutine e w branch themes commits ;; cleanup e w
                   = ([Log "Running main routine"; Log "No existing base found";
                       Log noBaseMessage], Exited)).
    { rewrite (mainRoutine_no_existing _ _ _ _ _ Hb Hs).
      unfold duplicateAndDeploy, duplicateCurrentBase. now rewrite Hg. }
    split; [exact Hend|].
    intros u Hall3 Hfetch. unfold run.
    rewrite (andThen_resolved _ _ _ Hall3).
    rewrite (andThen_resolved _ _ _ Hfetch), Hend.
    cbn [trace outcome fst snd]. split; [reflexivity|].
    eexists. rewrite app_assoc. reflexivity.
Qed.

Lemma no_base_exits_the_process_witness :
  let themes := [Sample.devMain; Sample.devOther] in
  let w := Sample.calm themes in
  getBase Sample.plainEnv themes false = ([Log noBaseMessage], ExitedProcess) /\
  mainRoutine Sample.plainEnv w (Some "feature/header") themes
    (parseCommits Sample.cherryOut) ;; cleanup Sample.plainEnv w
  = ([Log "Running main routine"; Log "No existing base found"; Log noBaseMessage],
     Exited) /\
  outcome (run Sample.plainEnv w) = Exited.
Proof.
  intros themes w.
  destruct (no_base_exits_the_process Sample.plainEnv themes Sample.devMain)
    as (Hg & _ & Hrun).
  - reflexivity.
  - reflexivity.
  - repeat constructor.
  - destruct (Hrun w (Some "feature/header") (parseCommits Sample.cherryOut))
      as [Hend Hwhole].
    + reflexivity.
    + reflexivity.
    + split; [exact Hg|]. split; [exact Hend|].
      exact (proj1 (Hwhole tt eq_refl eq_refl)).
Defined.

(** ** Traces of the planner *)

Ltac open_planner :=
  unfold duplicateAndDeploy, deployExisting, duplicateCurrentBase, thenOfBase,
    downloadTheme, uploadBaseToNewTheme, buildAndDeploy, cleanup, check.

(** Case analysis on a call of [getBase]: its result, with the trace that
    goes with it. *)
Ltac split_base e themes force :=
  let tr := fresh "tr" in
  let r := fresh "r" in
  let Ht := fresh "Ht" in
  pose proof (getBase_trace e themes force) as Ht;
  destruct (getBase e themes force) as [tr r];
  cbn [fst snd] in Ht; subst tr;
  destruct r as [? | [?|] | ? |].

Ltac split_world e w :=
  destruct (IS_QUICK_TEST e), (download w), (new_theme w), (tmp_config w),
    (chdir_root w), (deploy w).

Ltac solve_in :=
  repeat match goal with
         | H : In _ _ |- _ => cbn in H
         | H : _ \/ _ |- _ => destruct H as [H|H]
         | H : False |- _ => destruct H
         | H : _ = _ |- _ => discriminate H
         | H : BrrlDeploy _ = BrrlDeploy _ |- _ => injection H as H; subst
         end.

(** C1 (as amended).  On a branch matching feature, hotfix or bugfix for
    which the search finds no staging theme, a deploy call, when there is
    one, is made with the id read back from the scratch configuration, base
    selection has resolved with a theme, and the external calls are: the
    download of that theme and the creation of a new one (both left out in
    quick-test mode), the read-back, the change of directory, the deploy.
    With quick-test mode off, they are exactly these five as soon as base
    selection resolves and the download, the creation, the read-back and
    the change of directory succeed. *)
Theorem feature_branch_duplicates_then_deploys
  (e : Env) (w : World) (b : string) (themes : list Theme) (commits : list string) :
  Js.testI ["feature"; "hotfix"; "bugfix"] b = true ->
  isAlreadyDeployedThemeForBranch (now w) themes (Some b) commits
    (Js.test ["develop"] b) = Normal None ->
  let tr := trace (mainRoutine e w (Some b) themes commits) in
  (forall d, In (BrrlDeploy d) tr ->
     exists base i,
       getBase e themes false = ([], ReturnedPromise base) /\
       tmp_config w = inr i /\
       d = idValue i /\
       calls tr
       = ((if IS_QUICK_TEST e then [] else [ThemeKitDownload (id base); ThemeKitNew])
            ++ [ReadTmpConfig; ChdirRoot; BrrlDeploy d])%list) /\
  (forall base i,
     IS_QUICK_TEST e = false ->
     getBase e themes false = ([], ReturnedPromise base) ->
     download w = None ->
     new_theme w = None ->
     tmp_config w = inr i ->
     chdir_root w = None ->
     calls tr = [ThemeKitDownload (id base); ThemeKitNew; ReadTmpConfig; ChdirRoot;
                 BrrlDeploy (idValue i)]).
Proof.
  intros Hb Hs tr. subst tr.
  rewrite (mainRoutine_no_existing e w (Some b) themes commits (feature_is_pathA _ Hb) Hs).
  split.
  - intros d. open_planner. split_base e themes false; split_world e w;
      cbn; intros H; solve_in; eauto 6.
  - intros base i Hq Hg Hd Hn Hc Hr. open_planner.
    rewrite Hg, Hq, Hd, Hn, Hc, Hr. cbn. now destruct (deploy w).
Qed.

Lemma feature_branch_duplicates_then_deploys_witness :
  let themes := [Sample.live; Sample.devOther] in
  calls (trace (mainRoutine Sample.plainEnv (Sample.calm themes) (Some "feature/header")
                  themes (parseCommits Sample.cherryOut)))
  = [ThemeKitDownload (IdNum 1); ThemeKitNew; ReadTmpConfig; ChdirRoot;
     BrrlDeploy (IdVal (IdNum 999))].
Proof.
  intros themes.
  refine (proj2 (feature_branch_duplicates_then_deploys Sample.plainEnv
                   (Sample.calm themes) "feature/header" themes
                   (parseCommits Sample.cherryOut) _ _)
            Sample.live (Some (IdNum 999)) _ _ _ _ _ _); reflexivity.
Defined.

(** C1 as stated fails in quick-test mode: the branch matches, the search
    finds nothing, and the planner calls neither the download nor the
    creation command; it deploys to the id the scratch configuration
    happens to hold. *)
Lemma quick_test_skips_duplication :
  let themes := [Sample.live; Sample.devOther] in
  let commits := parseCommits Sample.cherryOut in
  let w := Sample.calm themes in
  IS_QUICK_TEST Sample.quickEnv = true /\
  Js.testI ["feature"; "hotfix"; "bugfix"] "feature/header" = true /\
  isAlreadyDeployedThemeForBranch (now w) themes (Some "feature/header") commits
    (Js.test ["develop"] "feature/header") = Normal None /\
  calls (trace (mainRoutine Sample.quickEnv w (Some "feature/header") themes commits))
  = [ReadTmpConfig; ChdirRoot; BrrlDeploy (IdVal (IdNum 999))].
Proof.
  cbv zeta. repeat split; reflexivity.
Qed.

(** C7 (as amended).  On a branch matching master and none of feature,
    hotfix, bugfix, develop:
    - with STAGE [backup] no deploy call is ever made, and with quick-test
      mode off, no explicit base id and a published theme, the published
      theme is downloaded and a new theme created as soon as these two
      commands succeed;
    - with STAGE [deploy] neither the download nor the creation command is
      ever called, and with no explicit base id and a published theme the
      deploy call is made with the published theme;
    - with any other STAGE nothing is called at all. *)
Theorem master_branch_dispatch
  (e : Env) (w : World) (b : string) (themes : list Theme) (commits : list string) :
  Js.testI ["master"] b = true ->
  Js.testI ["feature"; "hotfix"; "bugfix"; "develop"] b = false ->
  let p := mainRoutine e w (Some b) themes commits in
  (STAGE e = "backup" ->
   (forall d, ~ In (BrrlDeploy d) (trace p)) /\
   (forall published,
      IS_QUICK_TEST e = false ->
      BASE_THEME e = None ->
      find (fun theme => role theme =? "main") themes = Some published ->
      download w = None ->
      new_theme w = None ->
      calls (trace p) = [ThemeKitDownload (id published); ThemeKitNew; ReadTmpConfig])) /\
  (STAGE e = "deploy" ->
   (forall ev, In ev (trace p) -> ev <> ThemeKitNew /\ forall i, ev <> ThemeKitDownload i) /\
   (forall published,
      BASE_THEME e = None ->
      find (fun theme => role theme =? "main") themes = Some published ->
      chdir_root w = None ->
      calls (trace p) = [ChdirRoot; BrrlDeploy (ThemeVal published)])) /\
  (STAGE e <> "backup" -> STAGE e <> "deploy" ->
   p = ([Log "Running main routine"], Resolved tt)).
Proof.
  intros Hm Hb p. subst p. unfold mainRoutine, branchText.
  rewrite Hb, Hm. cbn [andb]. split; [|split].
  - intros Hst. rewrite Hst. change ("backup" =? "backup") with true. cbv iota. split.
    + intros d. open_planner. split_base e themes true; split_world e w;
        cbn; intros H; solve_in.
    + intros published Hq Hbase Hmain Hd Hn. open_planner. unfold getBase.
      rewrite Hmain, Hbase, Hq, Hd, Hn. cbn. now destruct (tmp_config w).
  - intros Hst. rewrite Hst. change ("deploy" =? "backup") with false.
    change ("deploy" =? "deploy") with true. cbv iota. split.
    + intros ev. open_planner. split_base e themes true;
        destruct (chdir_root w), (deploy w); cbn; intros H;
        (split; [|intros i]); intros ->; solve_in.
    + intros published Hbase Hmain Hr. open_planner. unfold getBase.
      rewrite Hmain, Hbase, Hr. cbn. now destruct (deploy w).
  - intros H1 H2. apply String.eqb_neq in H1, H2. now rewrite H1, H2.
Qed.

Lemma master_branch_dispatch_witness :
  let themes := [Sample.devOther; Sample.live] in
  let commits := parseCommits Sample.cherryOut in
  let w := Sample.calm themes in
  calls (trace (mainRoutine Sample.plainEnv w (Some "master") themes commits))
  = [ThemeKitDownload (IdNum 1); ThemeKitNew; ReadTmpConfig] /\
  calls (trace (mainRoutine Sample.deployEnv w (Some "master") themes commits))
  = [ChdirRoot; BrrlDeploy (ThemeVal Sample.live)] /\
  mainRoutine Sample.idleEnv w (Some "master") themes commits
  = ([Log "Running main routine"], Resolved tt).
Proof.
  intros themes commits w.
  split; [|split].
  - refine (proj2 (proj1 (master_branch_dispatch Sample.plainEnv w "master" themes commits
                             _ _) _) Sample.live _ _ _ _ _); reflexivity.
  - refine (proj2 (proj1 (proj2 (master_branch_dispatch Sample.deployEnv w "master" themes
                                    commits _ _)) _) Sample.live _ _ _); reflexivity.
  - refine (proj2 (proj2 (master_branch_dispatch Sample.idleEnv w "master" themes commits
                            _ _)) _ _); try reflexivity; vm_compute; discriminate.
Defined.

(** C7 as stated fails in quick-test mode: on master with STAGE [backup]
    neither the download nor the creation command is called, so nothing is
    duplicated. *)
Lemma quick_test_backup_duplicates_nothing :
  let themes := [Sample.devOther; Sample.live] in
  let commits := parseCommits Sample.cherryOut in
  let w := Sample.calm themes in
  IS_QUICK_TEST Sample.quickEnv = true /\
  STAGE Sample.quickEnv = "backup" /\
  Js.testI ["master"] "master" = true /\
  Js.testI ["feature"; "hotfix"; "bugfix"; "develop"] "master" = false /\
  mainRoutine Sample.quickEnv w (Some "master") themes commits
  = ([Log "Running main routine"; ReadTmpConfig], Resolved tt).
Proof.
  cbv zeta. repeat split; reflexivity.
Qed.

(** ** Quick-test mode *)

Section QuickTest.

Local Abbreviation quiet := (Forall (fun ev => quickSkips ev = false)).

Lemma quiet_andThen {A B} (p : Promise A) (k : A -> Promise B) :
  quiet (trace p) -> (forall a, quiet (trace (k a))) -> quiet (trace (andThen p k)).
Proof.
  intros Hp Hk. destruct p as [tr [a| |]]; cbn in *; try exact Hp.
  specialize (Hk a). destruct (k a) as [tr' o]. cbn in *.
  apply Forall_app. now split.
Qed.

Lemma quiet_all3 {A B C} (a : Promise A) (b : Promise B) (c : Promise C) :
  quiet (trace a) -> quiet (trace b) -> quiet (trace c) -> quiet (trace (all3 a b c)).
Proof.
  intros Ha Hb Hc. unfold all3. cbn [trace fst].
  apply Forall_app. split; [exact Ha|]. apply Forall_app. now split.
Qed.

Variables (e : Env) (w : World).
Hypothesis quick : IS_QUICK_TEST e = true.

Lemma quiet_prepareTmp : quiet (trace (prepareTmp e w)).
Proof.
  unfold prepareTmp, check. rewrite quick, andb_false_r. cbn.
  destruct (chdir_tmp w); repeat constructor.
Qed.

Lemma quiet_getBranch : quiet (trace (getBranch w)).
Proof.
  unfold getBranch, check. destruct (err (git_branch w)); repeat constructor.
Qed.

Lemma quiet_listThemes : quiet (trace (listThemes w)).
Proof.
  unfold listThemes. destruct (themes_json w); repeat constructor.
Qed.

Lemma quiet_fetchCommits (branch : option string) : quiet (trace (fetchCommits w branch)).
Proof.
  unfold fetchCommits, check. destruct (err (git_fetch w)); repeat constructor.
Qed.

Lemma quiet_buildAndDeploy (v : JsVal) : quiet (trace (buildAndDeploy w v)).
Proof.
  unfold buildAndDeploy, check.
  destruct (chdir_root w), (deploy w); repeat constructor.
Qed.

Lemma quiet_duplicateCurrentBase (themes : list Theme) (forcePublished : bool) :
  quiet (trace (duplicateCurrentBase e w themes forcePublished)).
Proof.
  open_planner. rewrite quick.
  split_base e themes forcePublished; destruct (tmp_config w); repeat constructor.
Qed.

Lemma quiet_mainRoutine (branch : option string) (themes : list Theme)
  (commits : list string) :
  quiet (trace (mainRoutine e w branch themes commits)).
Proof.
  unfold mainRoutine.
  apply quiet_andThen; [repeat constructor | intros _].
  destruct (Js.testI _ (branchText branch)).
  - apply quiet_andThen; [|intros v; apply quiet_buildAndDeploy].
    destruct (isAlreadyDeployedThemeForBranch _ _ _ _ _) as [[t|]|x].
    + repeat constructor.
    + apply quiet_andThen; [repeat constructor | intros _].
      apply quiet_duplicateCurrentBase.
    + repeat constructor.
  - destruct (andb _ (STAGE e =? "backup")).
    + apply quiet_andThen; [apply quiet_duplicateCurrentBase | intros _; constructor].
    + destruct (andb _ (STAGE e =? "deploy")); [|constructor].
      unfold thenOfBase.
      split_base e themes true; cbn [fst snd]; try (repeat constructor; fail).
      apply quiet_andThen; [constructor | intros _; apply quiet_buildAndDeploy].
Qed.

Lemma quiet_cleanup : quiet (trace (cleanup e w)).
Proof. unfold cleanup. rewrite quick. constructor. Qed.

Lemma quiet_run : quiet (trace (run e w)).
Proof.
  unfold run.
  apply quiet_andThen.
  - apply quiet_all3; [apply quiet_prepareTmp | apply quiet_getBranch | apply quiet_listThemes].
  - intros [[u branch] themes].
    apply quiet_andThen; [apply quiet_fetchCommits | intros commits].
    apply quiet_andThen; [apply quiet_mainRoutine | intros _; apply quiet_cleanup].
Qed.

End QuickTest.

Section QuickVersusNormal.

Lemma filter_kept_quiet (tr : list Event) :
  Forall (fun ev => quickSkips ev = false) tr -> filter kept (calls tr) = calls tr.
Proof.
  intros H. induction H as [|ev tr Hev _ IH]; [reflexivity|].
  change (calls (ev :: tr)) with (if isCall ev then ev :: calls tr else calls tr).
  destruct (isCall ev); [|exact IH].
  cbn [filter]. unfold kept at 1. rewrite Hev. cbn [negb]. now rewrite IH.
Qed.

Lemma same_of_quiet {A} (p : Promise A) :
  Forall (fun ev => quickSkips ev = false) (trace p) -> sameButSkipped p p.
Proof. intros H. split; [reflexivity|]. symmetry. now apply filter_kept_quiet. Qed.

Lemma same_andThen {A B} (p p' : Promise A) (k k' : A -> Promise B) :
  sameButSkipped p p' -> (forall a, sameButSkipped (k a) (k' a)) ->
  sameButSkipped (andThen p k) (andThen p' k').
Proof.
  destruct p as [tr o], p' as [tr' o']. unfold sameButSkipped.
  cbn [trace outcome fst snd].
  intros [-> Hc] Hk. destruct o' as [a| |]; cbn [andThen trace outcome fst snd];
    try (split; [reflexivity | exact Hc]).
  specialize (Hk a). destruct (k a) as [t1 o1], (k' a) as [t2 o2].
  cbn [trace outcome fst snd] in *.
  destruct Hk as [-> Hk]. split; [reflexivity|].
  now rewrite !calls_app, filter_app, Hc, Hk.
Qed.

Lemma same_all3 {A B C} (a a' : Promise A) (b b' : Promise B) (c c' : Promise C) :
  sameButSkipped a a' -> sameButSkipped b b' -> sameButSkipped c c' ->
  sameButSkipped (all3 a b c) (all3 a' b' c').
Proof.
  unfold sameButSkipped, all3. cbn [trace outcome fst snd].
  intros [-> Ha] [-> Hb] [-> Hc]. split; [reflexivity|].
  now rewrite !calls_app, !filter_app, Ha, Hb, Hc.
Qed.

(** [q] is the environment of a quick-test run, [n] that of a normal run
    with the same stage and base id, in a world where the guarded commands
    succeed. *)
Variables (q n : Env) (w : World).
Hypothesis q_quick : IS_QUICK_TEST q = true.
Hypothesis n_normal : IS_QUICK_TEST n = false.
Hypothesis same_stage : STAGE q = STAGE n.
Hypothesis same_base : BASE_THEME q = BASE_THEME n.
Hypothesis rm_before_ok : rm_before w = None.
Hypothesis mkdir_ok : mkdir_tmp w = None.
Hypothesis download_ok : download w = None.
Hypothesis new_theme_ok : new_theme w = None.
Hypothesis rm_after_ok : rm_after w = None.

Lemma same_prepareTmp : sameButSkipped (prepareTmp q w) (prepareTmp n w).
Proof.
  unfold prepareTmp, check.
  rewrite q_quick, n_normal, rm_before_ok, mkdir_ok.
  destruct (tmp_exists w), (chdir_tmp w); split; reflexivity.
Qed.

Lemma same_duplicateCurrentBase (themes : list Theme) (forcePublished : bool) :
  sameButSkipped (duplicateCurrentBase q w themes forcePublished)
                 (duplicateCurrentBase n w themes forcePublished).
Proof.
  open_planner. rewrite (getBase_env q n themes forcePublished same_base).
  rewrite q_quick, n_normal, download_ok, new_theme_ok.
  split_base n themes forcePublished; destruct (tmp_config w); split; reflexivity.
Qed.

Lemma same_mainRoutine (branch : option string) (themes : list Theme)
  (commits : list string) :
  sameButSkipped (mainRoutine q w branch themes commits)
                 (mainRoutine n w branch themes commits).
Proof.
  unfold mainRoutine. rewrite same_stage.
  apply same_andThen; [apply same_of_quiet; repeat constructor | intros _].
  destruct (Js.testI _ (branchText branch)).
  - apply same_andThen;
      [|intros v; apply same_of_quiet, quiet_buildAndDeploy].
    destruct (isAlreadyDeployedThemeForBranch _ _ _ _ _) as [[t|]|x].
    + apply same_of_quiet; repeat constructor.
    + apply same_andThen; [apply same_of_quiet; repeat constructor | intros _].
      apply same_duplicateCurrentBase.
    + apply same_of_quiet; repeat constructor.
  - destruct (andb _ (STAGE n =? "backup")).
    + apply same_andThen; [apply same_duplicateCurrentBase | intros _].
      apply same_of_quiet; constructor.
    + destruct (andb _ (STAGE n =? "deploy")); [|apply same_of_quiet; constructor].
      rewrite (getBase_env q n themes true same_base).
      apply same_of_quiet. unfold thenOfBase.
      split_base n themes true; cbn [fst snd]; try (repeat constructor; fail).
      apply quiet_andThen; [constructor | intros _; apply quiet_buildAndDeploy].
Qed.

Lemma same_cleanup : sameButSkipped (cleanup q w) (cleanup n w).
Proof.
  unfold cleanup, check. rewrite q_quick, n_normal, rm_after_ok. split; reflexivity.
Qed.

Lemma same_run : sameButSkipped (run q w) (run n w).
Proof.
  unfold run. apply same_andThen.
  - apply same_all3; [apply same_prepareTmp | |].
    + apply same_of_quiet, quiet_getBranch.
    + apply same_of_quiet, quiet_listThemes.
  - intros [[u branch] themes].
    apply same_andThen; [apply same_of_quiet, quiet_fetchCommits | intros commits].
    apply same_andThen; [apply same_mainRoutine | intros _; apply same_cleanup].
Qed.

End QuickVersusNormal.

(** C8.  In quick-test mode no run calls the download command, the
    creation command or [rm -r] on the scratch directory (nor [mkdir]).
    The rest runs unchanged: against a normal run with the same stage and
    base id, in a world where those commands succeed, the quick-test run
    ends the same way and makes the same calls in the same order, those
    commands apart. *)
Theorem quick_test_mode (e : Env) (w : World) :
  IS_QUICK_TEST e = true ->
  (forall ev, In ev (trace (run e w)) ->
     ev <> ExecRm /\ ev <> Mkdir /\ ev <> ThemeKitNew /\ forall i, ev <> ThemeKitDownload i) /\
  (forall n,
     IS_QUICK_TEST n = false ->
     STAGE e = STAGE n ->
     BASE_THEME e = BASE_THEME n ->
     rm_before w = None -> mkdir_tmp w = None ->
     download w = None -> new_theme w = None -> rm_after w = None ->
     outcome (run e w) = outcome (run n w) /\
     calls (trace (run e w)) = filter kept (calls (trace (run n w)))).
Proof.
  intros Hq. split.
  - intros ev Hin.
    pose proof (quiet_run e w Hq) as H. rewrite Forall_forall in H.
    specialize (H ev Hin).
    split; [|split; [|split; [|intros i]]]; intros ->; discriminate H.
  - intros n Hn Hs Hb H1 H2 H3 H4 H5.
    exact (same_run e n w Hq Hn Hs Hb H1 H2 H3 H4 H5).
Qed.

Lemma quick_test_mode_witness :
  let themes := [Sample.devOther; Sample.live] in
  let w := Sample.calm themes in
  calls (trace (run Sample.quickEnv w))
  = [ChdirTmp; ExecGitBranch; HttpGetThemes; ExecGitFetch; ExecGitCherry "develop";
     ReadTmpConfig; ChdirRoot; BrrlDeploy (IdVal (IdNum 999))] /\
  calls (trace (run Sample.quickEnv w)) = filter kept (calls (trace (run Sample.plainEnv w))) /\
  outcome (run Sample.quickEnv w) = outcome (run Sample.plainEnv w).
Proof.
  intros themes w.
  destruct (quick_test_mode Sample.quickEnv w eq_refl) as [_ H].
  destruct (H Sample.plainEnv eq_refl eq_refl eq_refl eq_refl eq_refl eq_refl eq_refl eq_refl)
    as [Ho Hc].
  split; [reflexivity|]. split; [exact Hc | exact Ho].
Defined.

(** ** Failures of the source-control commands *)

(** A failure of [git branch] rejects the run. *)
Lemma git_branch_failure_rejects (e : Env) (w : World) (x : Error) :
  err (git_branch w) = Some x ->
  exists x', outcome (run e w) = Rejected x' /\
             (outcome (prepareTmp e w) = Resolved tt -> x' = x).
Proof.
  intros H. unfold run.
  assert (Hb : outcome (getBranch w) = Rejected x).
  { unfold getBranch, check. now rewrite H. }
  destruct (outcome (prepareTmp e w)) as [[]|y|] eqn:Hp.
  - exists x. split; [|reflexivity].
    rewrite (andThen_rejected _ _ x); [reflexivity|].
    unfold all3. cbn [outcome snd]. fold (outcome (prepareTmp e w)).
    fold (outcome (getBranch w)). now rewrite Hp, Hb.
  - exists y. split; [|discriminate].
    rewrite (andThen_rejected _ _ y); [reflexivity|].
    unfold all3. cbn [outcome snd]. fold (outcome (prepareTmp e w)). now rewrite Hp.
  - exfalso. revert Hp. unfold prepareTmp, check.
    destruct (andb _ _), (rm_before w), (negb _), (mkdir_tmp w), (chdir_tmp w);
      discriminate.
Qed.

(** So does a failure of [git fetch]. *)
Lemma git_fetch_failure_rejects (w : World) (branch : option string) (x : Error) :
  err (git_fetch w) = Some x ->
  outcome (fetchCommits w branch) = Rejected x.
Proof. intros H. unfold fetchCommits, check. now rewrite H. Qed.

(** C6, where the code departs from it.  When [git fetch] succeeds and
    [git cherry] fails, whatever the error, the operation resolves with the
    commits parsed from what the command printed: with the empty list when
    it printed nothing. *)
Theorem git_cherry_failure_is_swallowed
  (w : World) (branch : option string) (x : Error) :
  err (git_fetch w) = None ->
  err (git_cherry w) = Some x ->
  outcome (fetchCommits w branch) = Resolved (parseCommits (stdout (git_cherry w))) /\
  (stdout (git_cherry w) = "" -> outcome (fetchCommits w branch) = Resolved []).
Proof.
  intros Hf _.
  assert (H : outcome (fetchCommits w branch)
              = Resolved (parseCommits (stdout (git_cherry w)))).
  { unfold fetchCommits, check. now rewrite Hf. }
  split; [exact H|]. intros Hout. rewrite H, Hout. reflexivity.
Qed.

Lemma git_cherry_failure_is_swallowed_witness :
  let themes := [Sample.staged (99 * Sample.day)%Z; Sample.live] in
  let w := Sample.cherryFails themes in
  outcome (fetchCommits w (Some "feature/header")) = Resolved [] /\
  outcome (run Sample.plainEnv w) = Resolved tt /\
  calls (trace (run Sample.plainEnv w))
  = [ExecRm; Mkdir; ChdirTmp; ExecGitBranch; HttpGetThemes; ExecGitFetch;
     ExecGitCherry "develop"; ThemeKitDownload (IdNum 1); ThemeKitNew; ReadTmpConfig;
     ChdirRoot; BrrlDeploy (IdVal (IdNum 999)); ExecRm].
Proof.
  intros themes w.
  destruct (git_cherry_failure_is_swallowed w (Some "feature/header")
              (Failure "Command failed: git cherry -v develop") eq_refl eq_refl)
    as [_ H].
  split; [exact (H eq_refl)|]. split; reflexivity.
Defined.

(** The same run when [git cherry] succeeds: the staging theme of the
    branch is found and deployed to, nothing is duplicated. *)
Example calm_run_deploys_to_the_staging_theme :
  let themes := [Sample.staged (99 * Sample.day)%Z; Sample.live] in
  calls (trace (run Sample.plainEnv (Sample.calm themes)))
  = [ExecRm; Mkdir; ChdirTmp; ExecGitBranch; HttpGetThemes; ExecGitFetch;
     ExecGitCherry "develop"; ChdirRoot; BrrlDeploy (IdVal (IdNum 7)); ExecRm].
Proof. reflexivity. Qed.

(** ** The model on small inputs *)

Example split_demo1 : Js.split " - " "STAGE - fix-bug (abc123)" = ["STAGE"; "fix-bug (abc123)"].
Proof. reflexivity. Qed.
Example split_demo2 : Js.split " - " "a - - b - " = ["a"; "- b"; ""].
Proof. reflexivity. Qed.
Example split_demo3 : Js.split " - " "" = [""].
Proof. reflexivity. Qed.
Example group_demo1 : Js.matchParenGroup "fix-bug (abc123)" = Some "abc123".
Proof. reflexivity. Qed.
Example group_demo2 : Js.matchParenGroup "a (b) (c) d) e" = Some "c) d".
Proof. reflexivity. Qed.
Example group_demo3 : Js.matchParenGroup "a ) ( b" = None.
Proof. reflexivity. Qed.
Example group_demo4 :
  Js.matchParenGroup ("(open" ++ LF ++ "x (y) z") = Some "y".
Proof. reflexivity. Qed.
Example trim_demo : Js.trim "  develop  " = "develop".
Proof. reflexivity. Qed.
Example marker_demo : Js.removeMarker "+ abc fix-it" = "abc fix-it".
Proof. reflexivity. Qed.
Example testI_demo : Js.testI ["staging"; "stage"] "Stage" = true.
Proof. reflexivity. Qed.
Example activeBranch_demo :
  activeBranch ("  develop" ++ LF ++ "* feature/header" ++ LF ++ "  master" ++ LF)
  = Some "feature/header".
Proof. reflexivity. Qed.
Example activeBranch_none : activeBranch ("  develop" ++ LF) = None.
Proof. reflexivity. Qed.
Example parseCommits_demo :
  parseCommits ("+ abc1234 fix the header" ++ LF ++ "- 99ffee0 bump" ++ LF)
  = ["abc1234 fix the header"; "99ffee0 bump"].
Proof. reflexivity. Qed.
Example sortThemes_demo :
  sortThemes [Sample.devOther; Sample.devMain; Sample.live; Sample.stageY]
  = [Sample.devMain; Sample.stageY; Sample.live; Sample.devOther].
Proof. reflexivity. Qed.
Example idToString_demo : idToString (IdNum 123) = "123" /\ idToString (IdStr "123") = "123".
Proof. split; reflexivity. Qed.
Example unclosed_parenthesis_throws :
  commitToken "DEV - wip (abc" = Throw (TypeError "Cannot read property '1' of null").
Proof. reflexivity. Qed.

(** * Further properties of the script *)

(** ** The order of the artifact list (lines 119-121) *)

Lemma insertTheme_perm (x : Theme) (l : list Theme) :
  Permutation (x :: l) (insertTheme x l).
Proof.
  induction l as [|y r IH]; cbn [insertTheme]; [reflexivity|].
  destruct (updated_at y <=? updated_at x)%Z; [reflexivity|].
  rewrite perm_swap. now constructor.
Qed.

Lemma insertTheme_sorted (x : Theme) (l : list Theme) :
  StronglySorted newerFirst l -> StronglySorted newerFirst (insertTheme x l).
Proof.
  intros H. induction H as [|y r Hr IH Hy]; cbn [insertTheme].
  - repeat constructor.
  - destruct (Z.leb_spec (updated_at y) (updated_at x)) as [Hle|Hlt].
    + constructor; [now constructor|].
      constructor; [exact Hle|].
      rewrite Forall_forall in *. intros z Hz. specialize (Hy z Hz).
      unfold newerFirst in *. lia.
    + constructor; [exact IH|].
      rewrite Forall_forall in *. intros z Hz.
      apply (Permutation_in _ (Permutation_sym (insertTheme_perm x r))) in Hz.
      destruct Hz as [<-|Hz]; [unfold newerFirst; lia | now apply Hy].
Qed.

Lemma insertTheme_same_date (d : Z) (x : Theme) (l : list Theme) :
  filter (updatedAt d) (insertTheme x l) = filter (updatedAt d) (x :: l).
Proof.
  induction l as [|y r IH]; cbn [insertTheme]; [reflexivity|].
  destruct (Z.leb_spec (updated_at y) (updated_at x)) as [Hle|Hlt]; [reflexivity|].
  cbn [filter] in *. rewrite IH. unfold updatedAt.
  destruct (Z.eqb_spec (updated_at y) d), (Z.eqb_spec (updated_at x) d);
    try reflexivity. lia.
Qed.

Lemma sortThemes_sorted_perm (l : list Theme) :
  Permutation l (sortThemes l) /\ StronglySorted newerFirst (sortThemes l).
Proof.
  induction l as [|x l [Hp Hs]]; [split; constructor|].
  change (sortThemes (x :: l)) with (insertTheme x (sortThemes l)). split.
  - rewrite <- insertTheme_perm. now constructor.
  - now apply insertTheme_sorted.
Qed.

(** The list handed to the planner holds the themes of the response, each
    as often as there, most recently updated first, and themes updated at
    the same instant stay in the order of the response. *)
Theorem sortThemes_stable_newest_first (l : list Theme) :
  Permutation l (sortThemes l) /\
  StronglySorted newerFirst (sortThemes l) /\
  (forall d, filter (updatedAt d) (sortThemes l) = filter (updatedAt d) l).
Proof.
  induction l as [|x l (Hp & Hs & Hf)].
  - repeat split; constructor.
  - change (sortThemes (x :: l)) with (insertTheme x (sortThemes l)).
    split; [|split].
    + rewrite <- insertTheme_perm. now constructor.
    + now apply insertTheme_sorted.
    + intros d. rewrite insertTheme_same_date. cbn [filter]. now rewrite Hf.
Qed.

(** ** Reversal and trimming *)

Section TrimFacts.

Lemma append_empty_r (s : string) : s ++ "" = s.
Proof. induction s as [|c r IH]; cbn; [reflexivity | now rewrite IH]. Qed.

Lemma append_assoc (a b c : string) : (a ++ b) ++ c = a ++ (b ++ c).
Proof. induction a as [|x a IH]; cbn; [reflexivity | now rewrite IH]. Qed.

Lemma revOnto_append (s acc : string) : Js.revOnto s acc = Js.rev s ++ acc.
Proof.
  unfold Js.rev. revert acc. induction s as [|c r IH]; intros acc; [reflexivity|].
  cbn [Js.revOnto]. rewrite (IH (String c acc)), (IH (String c EmptyString)).
  now rewrite append_assoc.
Qed.

Lemma rev_revOnto (s acc : string) : Js.rev (Js.revOnto s acc) = Js.revOnto acc s.
Proof.
  revert acc. induction s as [|c r IH]; intros acc; [reflexivity|].
  cbn [Js.revOnto]. now rewrite IH.
Qed.

Lemma rev_involutive (s : string) : Js.rev (Js.rev s) = s.
Proof. unfold Js.rev at 2. now rewrite rev_revOnto. Qed.

Lemma revOnto_app (x y acc : string) :
  Js.revOnto (x ++ y) acc = Js.revOnto y (Js.revOnto x acc).
Proof. revert acc. induction x as [|c x IH]; intros acc; [reflexivity | apply IH]. Qed.

Lemma rev_append (a b : string) : Js.rev (a ++ b) = Js.rev b ++ Js.rev a.
Proof. unfold Js.rev at 1. now rewrite revOnto_app, revOnto_append. Qed.

Lemma trimStart_suffix (s : string) : exists sp, s = sp ++ Js.trimStart s.
Proof.
  induction s as [|c r [sp IH]]; [now exists EmptyString|].
  cbn [Js.trimStart]. destruct (Js.isSpace c).
  - exists (String c sp). cbn. now rewrite <- IH.
  - now exists EmptyString.
Qed.

Lemma startsClean_trimStart (s : string) : startsClean (Js.trimStart s) = true.
Proof.
  induction s as [|c r IH]; [reflexivity|].
  cbn [Js.trimStart]. destruct (Js.isSpace c) eqn:Hc; [exact IH|].
  cbn. now rewrite Hc.
Qed.

Lemma trimStart_clean (s : string) : startsClean s = true -> Js.trimStart s = s.
Proof.
  destruct s as [|c r]; [reflexivity|]. cbn.
  now destruct (Js.isSpace c).
Qed.

Lemma startsClean_prefix (r t : string) :
  startsClean (r ++ t) = true -> startsClean r = true.
Proof. destruct r; [reflexivity | exact (fun H => H)]. Qed.

(** What [trim] returns has no white space at either end, so trimming it
    again changes nothing. *)
Lemma trim_clean (s : string) :
  startsClean (Js.trim s) = true /\
  startsClean (Js.rev (Js.trim s)) = true /\
  Js.trim (Js.trim s) = Js.trim s.
Proof.
  assert (Hfront : startsClean (Js.trim s) = true).
  { unfold Js.trim.
    destruct (trimStart_suffix (Js.rev (Js.trimStart s))) as [sp Hsp].
    pose proof (startsClean_trimStart s) as Ha.
    rewrite <- (rev_involutive (Js.trimStart s)), Hsp, rev_append in Ha.
    exact (startsClean_prefix _ _ Ha). }
  assert (Hback : startsClean (Js.rev (Js.trim s)) = true).
  { unfold Js.trim. rewrite rev_involutive. apply startsClean_trimStart. }
  split; [exact Hfront|]. split; [exact Hback|].
  unfold Js.trim at 1.
  rewrite (trimStart_clean _ Hfront), (trimStart_clean _ Hback).
  apply rev_involutive.
Qed.

End TrimFacts.

(** ** The commit list (lines 142-147) *)

(** Every entry of the commit list is non-empty and has no white space at
    either end. *)
Theorem parseCommits_entries (out c : string) :
  In c (parseCommits out) ->
  nonEmpty c = true /\
  startsClean c = true /\ startsClean (Js.rev c) = true /\
  Js.trim c = c.
Proof.
  intros Hc. unfold parseCommits in Hc.
  apply filter_In in Hc as [Hin Hne]. apply in_map_iff in Hin as [line [<- _]].
  destruct (trim_clean (Js.removeMarker line)) as (H1 & H2 & H3). auto.
Qed.

Lemma parseCommits_entries_witness :
  nonEmpty "99ffee0 bump" = true /\ Js.trim "99ffee0 bump" = "99ffee0 bump".
Proof.
  destruct (parseCommits_entries ("+ abc1234 fix" ++ LF ++ "  - 99ffee0 bump  " ++ LF)
              "99ffee0 bump") as (H1 & _ & _ & H4).
  - vm_compute. right. left. reflexivity.
  - split; [exact H1 | exact H4].
Defined.

(** ** The active branch (lines 88-100) *)

(** A branch name matching none of the words the planner looks for: the
    planner logs its start and does nothing else. *)
Lemma unmatched_branch_does_nothing
  (e : Env) (w : World) (branch : option string) (themes : list Theme)
  (commits : list string) :
  Js.testI ["feature"; "hotfix"; "bugfix"; "develop"] (branchText branch) = false ->
  Js.testI ["master"] (branchText branch) = false ->
  mainRoutine e w branch themes commits = ([Log "Running main routine"], Resolved tt).
Proof. intros H1 H2. unfold mainRoutine. now rewrite H1, H2. Qed.

Lemma branchStep_from (lines0 : list string) (l : list string) :
  incl l lines0 ->
  forall acc,
    (forall b, acc = Some b ->
       exists line, In line lines0 /\ Js.includes "*" line = true /\
                    b = Js.trim (Js.removeFirst "* " line)) ->
    forall b, fold_left branchStep l acc = Some b ->
      exists line, In line lines0 /\ Js.includes "*" line = true /\
                   b = Js.trim (Js.removeFirst "* " line).
Proof.
  induction l as [|line l IH]; intros Hincl acc Hacc b Hb.
  - now apply Hacc.
  - cbn [fold_left] in Hb. apply (IH (fun x Hx => Hincl x (or_intror Hx)) _) in Hb;
      [exact Hb|].
    intros b' Hb'. unfold branchStep in Hb'.
    assert (Hnew : (if Js.includes "*" line
                    then Some (Js.trim (Js.removeFirst "* " line)) else None) = Some b'
                   -> exists line0, In line0 lines0 /\ Js.includes "*" line0 = true /\
                                    b' = Js.trim (Js.removeFirst "* " line0)).
    { destruct (Js.includes "*" line) eqn:Hstar; [|discriminate].
      intros [= <-]. exists line. repeat split; [|exact Hstar].
      apply Hincl. now left. }
    destruct acc as [[|c r]|]; auto.
Qed.

(** The active branch is read off a line of the output that holds a star:
    it is that line without its first ["* "], trimmed.  When no line holds
    a star there is no active branch, and the planner, given that, calls
    nothing. *)
Theorem activeBranch_from_starred_line (out : string) :
  (forall b, activeBranch out = Some b ->
     Js.trim b = b /\
     exists line, In line (Js.split LF out) /\ Js.includes "*" line = true /\
                  b = Js.trim (Js.removeFirst "* " line)) /\
  (Js.includes "*" out = false ->
     activeBranch out = None /\
     forall e w themes commits,
       mainRoutine e w (activeBranch out) themes commits
       = ([Log "Running main routine"], Resolved tt)).
Proof.
  assert (Hfrom : forall b, activeBranch out = Some b ->
            exists line, In line (Js.split LF out) /\ Js.includes "*" line = true /\
                         b = Js.trim (Js.removeFirst "* " line)).
  { intros b Hb. unfold activeBranch in Hb.
    apply (branchStep_from (Js.split LF out) (Js.split LF out) (incl_refl _) None);
      [discriminate | exact Hb]. }
  split.
  - intros b Hb. split; [|now apply Hfrom].
    destruct (Hfrom b Hb) as (line & _ & _ & ->). apply trim_clean.
  - intros Hstar.
    assert (Hnone : activeBranch out = None).
    { destruct (activeBranch out) as [b|] eqn:Hb; [|reflexivity].
      destruct (Hfrom b eq_refl) as (line & Hin & Hline & _).
      pose proof (has_splitAux "*"%char LF out 0 EmptyString Hstar eq_refl) as HF.
      rewrite Forall_forall in HF. specialize (HF line Hin). congruence. }
    split; [exact Hnone|]. intros e w themes commits. rewrite Hnone.
    now apply unmatched_branch_does_nothing.
Qed.

Lemma activeBranch_from_starred_line_witness :
  activeBranch ("  develop" ++ LF ++ "  master" ++ LF) = None /\
  mainRoutine Sample.plainEnv (Sample.calm [])
    (activeBranch ("  develop" ++ LF ++ "  master" ++ LF)) [] []
  = ([Log "Running main routine"], Resolved tt).
Proof.
  destruct (activeBranch_from_starred_line ("  develop" ++ LF ++ "  master" ++ LF))
    as [_ H].
  destruct (H eq_refl) as [Hnone Hmain].
  split; [exact Hnone | apply Hmain].
Defined.

(** ** What the search returns (lines 219-255) *)

Lemma searchStep_found_inv
  (now : Z) (commits : list string) (flag : bool) (x t : Theme) :
  searchStep now commits flag (Normal None) x = Normal (Some t) ->
  x = t /\
  Js.testI ["staging"; "stage"] (envOf (name t)) = true /\
  (exists token, commitToken (name t) = Normal token /\
                 commitFound token commits = true) /\
  (flag = true -> (now - sevenDays <= updated_at t)%Z).
Proof.
  unfold searchStep.
  destruct (commitToken (name x)) as [token|err] eqn:Htok; [|discriminate].
  destruct (Js.testI ["staging"; "stage"] (envOf (name x))) eqn:Henv; [|discriminate].
  destruct (commitFound token commits) eqn:Hfound; [|discriminate].
  cbn [negb].
  destruct (andb flag (updated_at x <? now - sevenDays)%Z) eqn:Hd; [discriminate|].
  intros [= <-]. split; [reflexivity|]. split; [exact Henv|].
  split; [now exists token|].
  intros ->. cbn [andb] in Hd. apply Z.ltb_ge in Hd. exact Hd.
Qed.

Lemma search_found_inv
  (now : Z) (themes : list Theme) (branch : option string)
  (commits : list string) (flag : bool) (t : Theme) :
  isAlreadyDeployedThemeForBranch now themes branch commits flag = Normal (Some t) ->
  exists pre post,
    themes = (pre ++ t :: post)%list /\
    isAlreadyDeployedThemeForBranch now pre branch commits flag = Normal None /\
    searchStep now commits flag (Normal None) t = Normal (Some t).
Proof.
  unfold isAlreadyDeployedThemeForBranch.
  induction themes as [|x l IH] using rev_ind; [discriminate|].
  rewrite fold_left_app. cbn [fold_left].
  destruct (fold_left (searchStep now commits flag) l (Normal None))
    as [[found|]|err] eqn:Hl.
  - cbn [searchStep]. intros [= ->].
    destruct (IH eq_refl) as (pre & post & -> & Hpre & Hstep).
    exists pre, (post ++ [x])%list. rewrite <- app_assoc. now repeat split.
  - intros Hx. pose proof (searchStep_found_inv _ _ _ _ _ Hx) as [-> _].
    exists l, []. now repeat split.
  - discriminate.
Qed.

(** When the search returns a theme, it is a theme of the list with a
    stage/staging tag whose commit token is found in the commit list, fresh
    when freshness is asked for, and no theme before it in the list
    qualifies. *)
Theorem search_returns_first_qualifying
  (now : Z) (themes : list Theme) (branch : option string)
  (commits : list string) (noLessThan7DaysOld : bool) (t : Theme) :
  isAlreadyDeployedThemeForBranch now themes branch commits noLessThan7DaysOld
  = Normal (Some t) ->
  (exists pre post,
     themes = (pre ++ t :: post)%list /\
     isAlreadyDeployedThemeForBranch now pre branch commits noLessThan7DaysOld
     = Normal None) /\
  Js.testI ["staging"; "stage"] (envOf (name t)) = true /\
  (exists token, commitToken (name t) = Normal token /\
                 commitFound token commits = true) /\
  (noLessThan7DaysOld = true -> (now - sevenDays <= updated_at t)%Z).
Proof.
  intros H. destruct (search_found_inv _ _ _ _ _ _ H) as (pre & post & Hl & Hpre & Hstep).
  destruct (searchStep_found_inv _ _ _ _ _ Hstep) as (_ & Henv & Htok & Hfresh).
  split; [now exists pre, post | auto].
Qed.

Lemma search_returns_first_qualifying_witness :
  Js.testI ["staging"; "stage"] (envOf (name (Sample.staged (94 * Sample.day)%Z))) = true /\
  (true = true -> (100 * Sample.day - sevenDays <= 94 * Sample.day)%Z).
Proof.
  destruct (search_returns_first_qualifying (100 * Sample.day)%Z
              [Sample.live; Sample.staged (94 * Sample.day)%Z; Sample.devOther]
              (Some "develop") (parseCommits Sample.cherryOut) true
              (Sample.staged (94 * Sample.day)%Z) eq_refl)
    as (_ & Henv & _ & Hfresh).
  split; [exact Henv | exact Hfresh].
Defined.

(** With an empty commit list the search never returns a theme. *)
Theorem search_without_commits_finds_nothing
  (now : Z) (themes : list Theme) (branch : option string)
  (noLessThan7DaysOld : bool) (t : Theme) :
  isAlreadyDeployedThemeForBranch now themes branch [] noLessThan7DaysOld
  <> Normal (Some t).
Proof.
  intros H. destruct (search_found_inv _ _ _ _ _ _ H) as (pre & post & _ & _ & Hstep).
  destruct (searchStep_found_inv _ _ _ _ _ Hstep) as (_ & _ & (token & _ & Hf) & _).
  discriminate Hf.
Qed.

(** ** The parenthesized commit token (lines 227-229) *)

Section ParenGroup.

Local Abbreviation closeThen := (fun g s3 => Js.expect ")" s3 (fun _ => Some g)).
Local Abbreviation openThen :=
  (fun s1 => Js.expect "(" s1 (fun s2 => Js.dotStarGroup s2 EmptyString closeThen)).

Lemma group_without_close (s acc : string) :
  Js.includes ")" s = false -> Js.dotStarGroup s acc closeThen = None.
Proof.
  revert acc. induction s as [|c r IH]; intros acc H; [reflexivity|].
  rewrite has_cons in H. apply orb_false_iff in H as [Hc Hr].
  rewrite Ascii.eqb_sym in Hc.
  cbn [Js.dotStarGroup Js.expect]. rewrite (IH _ Hr), Hc.
  now destruct (Js.isLineTerminator c).
Qed.

Lemma star_without_close (s : string) :
  Js.includes ")" s = false -> Js.dotStar s openThen = None.
Proof.
  induction s as [|c r IH]; intros H; [reflexivity|].
  pose proof H as H'. rewrite has_cons in H'. apply orb_false_iff in H' as [Hc Hr].
  cbn [Js.dotStar Js.expect]. rewrite (IH Hr), (group_without_close _ _ Hr).
  now destruct (Js.isLineTerminator c), (Ascii.eqb c "(").
Qed.

(** Without a closing parenthesis there is no match. *)
Lemma matchParenGroup_without_close (s : string) :
  Js.includes ")" s = false -> Js.matchParenGroup s = None.
Proof.
  induction s as [|c r IH]; intros H; [reflexivity|].
  cbn [Js.matchParenGroup]. unfold Js.matchParenGroupAt.
  rewrite (star_without_close _ H).
  rewrite has_cons in H. apply orb_false_iff in H as [_ Hr]. now apply IH.
Qed.

Lemma oneLine_cons (c : ascii) (s : string) :
  oneLine (String c s) -> Js.isLineTerminator c = false /\ oneLine s.
Proof.
  unfold oneLine, LF, CR. rewrite !has_cons. intros [H1 H2].
  apply orb_false_iff in H1 as [H1 H1'], H2 as [H2 H2'].
  rewrite Ascii.eqb_sym in H1, H2.
  unfold Js.isLineTerminator. now rewrite H1, H2.
Qed.

Lemma star_skips_prefix {R} (a b : string) (k : string -> option R) (x : R) :
  oneLine a -> Js.dotStar b k = Some x -> Js.dotStar (a ++ b) k = Some x.
Proof.
  intros Ha Hb. induction a as [|c a IH]; [exact Hb|].
  apply oneLine_cons in Ha as [Hc Ha].
  cbn [append Js.dotStar]. now rewrite Hc, (IH Ha).
Qed.

Lemma group_takes_all (g acc : string) :
  oneLine g ->
  Js.dotStarGroup (g ++ ")") acc closeThen = Some (Js.rev acc ++ g).
Proof.
  revert acc. induction g as [|c g IH]; intros acc Hg.
  - cbn. now rewrite append_empty_r.
  - apply oneLine_cons in Hg as [Hc Hg].
    cbn [append Js.dotStarGroup]. rewrite Hc, (IH _ Hg).
    now rewrite <- !revOnto_append.
Qed.

Lemma star_finds_last_open (g : string) :
  oneLine g -> Js.includes "(" g = false ->
  Js.dotStar ("(" ++ g ++ ")") openThen = Some g.
Proof.
  intros Hg Hopen.
  assert (Hin : forall s, Js.includes "(" s = false ->
                          Js.dotStar (s ++ ")") openThen = None).
  { induction s as [|c s IH]; intros H; [reflexivity|].
    rewrite has_cons in H. apply orb_false_iff in H as [Hc Hs].
    rewrite Ascii.eqb_sym in Hc.
    cbn [append Js.dotStar Js.expect]. rewrite (IH Hs), Hc.
    now destruct (Js.isLineTerminator c). }
  cbn [append Js.dotStar Js.expect]. rewrite (Hin g Hopen).
  change (Js.isLineTerminator "(") with false. cbv iota.
  change (Ascii.eqb "(" "(") with true. cbv iota.
  now rewrite (group_takes_all g EmptyString Hg).
Qed.

(** A label, then a token in parentheses, on one line, the token without an
    opening parenthesis: the match captures the token. *)
Lemma matchParenGroup_label_token (label g : string) :
  oneLine label -> oneLine g -> Js.includes "(" g = false ->
  Js.matchParenGroup (label ++ "(" ++ g ++ ")") = Some g.
Proof.
  intros Hl Hg Hopen.
  assert (H : Js.matchParenGroupAt (label ++ "(" ++ g ++ ")") = Some g).
  { unfold Js.matchParenGroupAt.
    apply star_skips_prefix; [exact Hl | now apply star_finds_last_open]. }
  destruct (label ++ "(" ++ g ++ ")"); cbn [Js.matchParenGroup]; now rewrite H.
Qed.

End ParenGroup.

(** ** Names built to the convention, and names that break it *)

Lemma includes_append_r (needle a b : string) :
  Js.includes needle b = true -> Js.includes needle (a ++ b) = true.
Proof.
  intros H. induction a as [|c a IH]; [exact H|].
  cbn [append Js.includes]. rewrite IH. now destruct (Js.startsWith _ _).
Qed.

Lemma split_env_rest (env rest cur : string) :
  Js.includes " " env = false ->
  Js.includes " - " rest = false ->
  Js.splitAux " - " (env ++ " - " ++ rest) 0 cur = [Js.revOnto cur env; rest].
Proof.
  intros Henv Hrest. revert cur. induction env as [|c env IH]; intros cur.
  - cbn [append Js.splitAux Js.startsWith String.length Nat.sub].
    change (Ascii.eqb " " " ") with true. change (Ascii.eqb "-" "-") with true.
    cbv iota. cbn [Js.revOnto]. now rewrite (splitAux_no_sep _ _ _ Hrest).
  - rewrite has_cons in Henv. apply orb_false_iff in Henv as [Hc Henv].
    cbn [append Js.splitAux Js.startsWith]. rewrite Hc.
    now rewrite (IH Henv).
Qed.

(** A name written [ENV - label(token)], the tag without a space, the part
    after the separator on one line and without a further separator, the
    token without an opening parenthesis: the tag and the token are read
    back. *)
Theorem name_round_trip (env label token : string) :
  Js.includes " " env = false ->
  Js.includes " - " (label ++ "(" ++ token ++ ")") = false ->
  oneLine label -> oneLine token ->
  Js.includes "(" token = false ->
  envOf (env ++ " - " ++ label ++ "(" ++ token ++ ")") = env /\
  commitToken (env ++ " - " ++ label ++ "(" ++ token ++ ")") = Normal token.
Proof.
  intros Henv Hsep Hl Ht Hopen.
  pose proof (split_env_rest env _ EmptyString Henv Hsep) as Hsplit.
  cbn [Js.revOnto] in Hsplit.
  split.
  - unfold envOf, Js.split. now rewrite Hsplit.
  - unfold commitToken, commitOf, Js.split. rewrite Hsplit. cbn [nth].
    rewrite (includes_append_r "(" label ("(" ++ token ++ ")") eq_refl).
    now rewrite (matchParenGroup_label_token _ _ Hl Ht Hopen).
Qed.

Lemma name_round_trip_witness :
  envOf "STAGING - header redesign (9f3c2ab)" = "STAGING" /\
  commitToken "STAGING - header redesign (9f3c2ab)" = Normal "9f3c2ab".
Proof.
  apply (name_round_trip "STAGING" "header redesign " "9f3c2ab");
    try reflexivity; split; reflexivity.
Defined.

(** A theme reached by the search whose name has, after the separator, an
    opening parenthesis and no closing one makes the search throw, whatever
    its tag, and the planner is rejected with that error before it calls
    anything. *)
Theorem unclosed_parenthesis_rejects_the_planner
  (e : Env) (w : World) (branch : option string)
  (pre post : list Theme) (t : Theme) (commits : list string) :
  let flag := Js.test ["develop"] (branchText branch) in
  let broken := TypeError "Cannot read property '1' of null" in
  Js.testI ["feature"; "hotfix"; "bugfix"; "develop"] (branchText branch) = true ->
  isAlreadyDeployedThemeForBranch (now w) pre branch commits flag = Normal None ->
  Js.includes "(" (commitOf (name t)) = true ->
  Js.includes ")" (commitOf (name t)) = false ->
  isAlreadyDeployedThemeForBranch (now w) (pre ++ t :: post) branch commits flag
  = Throw broken /\
  mainRoutine e w branch (pre ++ t :: post) commits
  = ([Log "Running main routine"], Rejected broken).
Proof.
  intros flag broken Hb Hpre Hopen Hclose.
  assert (Hs : isAlreadyDeployedThemeForBranch (now w) (pre ++ t :: post) branch commits flag
               = Throw broken).
  { rewrite (search_app _ _ _ _ _ _ _ Hpre).
    unfold searchStep at 2, commitToken.
    rewrite Hopen, (matchParenGroup_without_close _ Hclose).
    apply search_thrown_stays. }
  split; [exact Hs|].
  unfold mainRoutine. rewrite Hb. fold flag. now rewrite Hs.
Qed.

Lemma unclosed_parenthesis_rejects_the_planner_witness :
  let broken := Sample.unclosed in
  mainRoutine Sample.plainEnv (Sample.calm []) (Some "feature/header")
    ([Sample.live] ++ broken :: [Sample.staged (99 * Sample.day)%Z])
    (parseCommits Sample.cherryOut)
  = ([Log "Running main routine"],
     Rejected (TypeError "Cannot read property '1' of null")).
Proof.
  intros broken.
  apply (unclosed_parenthesis_rejects_the_planner Sample.plainEnv (Sample.calm [])
           (Some "feature/header") [Sample.live] [Sample.staged (99 * Sample.day)%Z]
           broken (parseCommits Sample.cherryOut)); reflexivity.
Defined.

(** ** What base selection returns (lines 266-298) *)


(** Without an explicit base id, the theme [getBase] resolves with is a
    theme of the list: the first published one when [forcePublished] is
    asked for, and otherwise one whose tag is live or stage, never a theme
    with another tag. *)
Theorem base_without_override_is_published_or_live
  (e : Env) (themes : list Theme) (forcePublished : bool) (t : Theme) :
  BASE_THEME e = None ->
  snd (getBase e themes forcePublished) = ReturnedPromise t ->
  In t themes /\
  (if forcePublished
   then find (fun theme => role theme =? "main") themes = Some t
   else isLiveOrStage t = true).
Proof.
  intros Hbase. unfold getBase. rewrite Hbase.
  destruct (find (fun theme => role theme =? "main") themes) as [p|] eqn:Hmain;
    [|discriminate].
  pose proof (find_some _ _ Hmain) as [Hin _].
  destruct forcePublished.
  - cbn. intros [= <-]. now split.
  - destruct (isLiveOrStage p) eqn:Hp.
    + cbn. intros [= <-]. now split.
    + destruct (find isLiveOrStage themes) as [u|] eqn:Hu; [|discriminate].
      cbn. intros [= <-]. apply find_some in Hu. exact Hu.
Qed.

Lemma base_without_override_is_published_or_live_witness :
  In Sample.stageY [Sample.devMain; Sample.devOther; Sample.stageY; Sample.live] /\
  isLiveOrStage Sample.stageY = true.
Proof.
  exact (base_without_override_is_published_or_live Sample.plainEnv
           [Sample.devMain; Sample.devOther; Sample.stageY; Sample.live] false
           Sample.stageY eq_refl eq_refl).
Defined.



(** With an explicit base id configured, nothing chained on [getBase] ever
    runs: the call throws (no published theme) or returns a value that is
    not a promise, and [.then] on it throws.  Duplication is rejected with a
    [TypeError] before any external call, whatever the list and the flag. *)
Theorem explicit_base_breaks_every_caller
  (e : Env) (base : string) (w : World) (themes : list Theme) (forcePublished : bool) :
  BASE_THEME e = Some base ->
  exists msg,
    (forall B (k : Theme -> Promise B),
       thenOfBase (getBase e themes forcePublished) k = ([], Rejected (TypeError msg))) /\
    duplicateCurrentBase e w themes forcePublished = ([], Rejected (TypeError msg)).
Proof.
  intros Hbase. unfold duplicateCurrentBase, thenOfBase, getBase. rewrite Hbase.
  destruct (find (fun theme => role theme =? "main") themes) as [p|].
  - cbn [snd fst].
    destruct (find (fun theme => idToString (id theme) =? base) themes);
      eexists; split; reflexivity.
  - eexists; split; reflexivity.
Qed.

Lemma explicit_base_breaks_every_caller_witness :
  exists msg,
    duplicateCurrentBase Sample.base123Env (Sample.calm [])
      [Sample.live; Sample.theme123 "unpublished"] false
    = ([], Rejected (TypeError msg)).
Proof.
  destruct (explicit_base_breaks_every_caller Sample.base123Env "123" (Sample.calm [])
              [Sample.live; Sample.theme123 "unpublished"] false eq_refl)
    as [msg [_ H]].
  now exists msg.
Defined.

(** ** The join and the stages after it (lines 48-217) *)

(** The three joined operations resolve exactly when the removal of an
    existing scratch directory, its creation (both only outside quick-test
    mode), the change into it, [git branch] and the listing all succeed;
    the planner is then given the active branch and the themes of the
    response, most recently updated first. *)
Theorem join_resolves_iff
  (e : Env) (w : World) (v : unit * option string * list Theme) :
  outcome (all3 (prepareTmp e w) (getBranch w) (listThemes w)) = Resolved v <->
  (andb (tmp_exists w) (negb (IS_QUICK_TEST e)) = true -> rm_before w = None) /\
  (IS_QUICK_TEST e = false -> mkdir_tmp w = None) /\
  chdir_tmp w = None /\
  err (git_branch w) = None /\
  exists themes,
    themes_json w = Body themes /\
    v = (tt, activeBranch (stdout (git_branch w)), sortThemes themes).
Proof.
  unfold all3, prepareTmp, getBranch, listThemes, check.
  destruct (tmp_exists w), (IS_QUICK_TEST e), (rm_before w), (mkdir_tmp w),
    (chdir_tmp w), (err (git_branch w)), (themes_json w) as [x|x|themes];
    cbn; split;
    try (intros H; discriminate H);
    try (intros (H1 & H2 & H3 & H4 & themes' & H5 & H6);
         first [ discriminate (H1 eq_refl) | discriminate (H2 eq_refl)
               | discriminate H3 | discriminate H4 | discriminate H5 ]).
  all: try (intros [= <-]; repeat split; try reflexivity; try discriminate;
            eexists; split; reflexivity).
  all: intros (_ & _ & _ & _ & themes' & [= <-] & ->); reflexivity.
Qed.

Lemma join_resolves_iff_witness :
  outcome (all3 (prepareTmp Sample.plainEnv (Sample.calm [Sample.live; Sample.devMain]))
             (getBranch (Sample.calm [Sample.live; Sample.devMain]))
             (listThemes (Sample.calm [Sample.live; Sample.devMain])))
  = Resolved (tt, Some "feature/header", [Sample.devMain; Sample.live]).
Proof.
  apply (proj2 (join_resolves_iff Sample.plainEnv (Sample.calm [Sample.live; Sample.devMain])
                  (tt, Some "feature/header", [Sample.devMain; Sample.live]))).
  repeat split. exists [Sample.live; Sample.devMain]. split; reflexivity.
Defined.

Section Stages.

Variables (e : Env) (w : World).

Local Abbreviation joined := (all3 (prepareTmp e w) (getBranch w) (listThemes w)).

(** The run, stage by stage, once the three joined operations and the
    commit listing have resolved. *)
Lemma run_from_planner (u : unit) (branch : option string) (themes : list Theme)
  (commits : list string) :
  outcome joined = Resolved (u, branch, themes) ->
  outcome (fetchCommits w branch) = Resolved commits ->
  run e w
  = ((trace joined ++ trace (fetchCommits w branch)
        ++ trace (mainRoutine e w branch themes commits ;; cleanup e w))%list,
     outcome (mainRoutine e w branch themes commits ;; cleanup e w)).
Proof.
  intros Hj Hf. unfold run.
  rewrite (andThen_resolved _ _ _ Hj), (andThen_resolved _ _ _ Hf). reflexivity.
Qed.

(** A rejected planner ends the run: the error is the run's, nothing is
    logged or called after it, and the scratch directory stays. *)
Theorem planner_rejection_skips_cleanup
  (u : unit) (branch : option string) (themes : list Theme) (commits : list string)
  (x : Error) :
  outcome joined = Resolved (u, branch, themes) ->
  outcome (fetchCommits w branch) = Resolved commits ->
  outcome (mainRoutine e w branch themes commits) = Rejected x ->
  run e w
  = ((trace joined ++ trace (fetchCommits w branch)
        ++ trace (mainRoutine e w branch themes commits))%list,
     Rejected x).
Proof.
  intros Hj Hf Hm. rewrite (run_from_planner _ _ _ _ Hj Hf).
  now rewrite (andThen_rejected _ _ _ Hm).
Qed.

(** Outside quick-test mode, a run that resolves has ended on the removal
    of the scratch directory, and that removal succeeded. *)
Theorem resolved_run_has_cleaned_up (v : unit) :
  IS_QUICK_TEST e = false ->
  outcome (run e w) = Resolved v ->
  rm_after w = None /\
  exists before,
    trace (run e w) = (before ++ [Log "Removing tmp directory"; ExecRm])%list.
Proof.
  intros Hq. unfold run.
  destruct joined as [t1 [[[u branch] themes]| |]]; cbn [andThen]; try discriminate.
  destruct (fetchCommits w branch) as [t2 [commits| |]]; cbn [andThen]; try discriminate.
  destruct (mainRoutine e w branch themes commits) as [t3 [[]| |]]; cbn [andThen];
    try discriminate.
  unfold cleanup, check. rewrite Hq.
  destruct (rm_after w); cbn; [discriminate|]. intros _. split; [reflexivity|].
  exists (t1 ++ t2 ++ t3)%list. now rewrite <- !app_assoc.
Qed.

(** A failing [git fetch] rejects the run with its error once [git cherry]
    has been started as well; the planner and the cleanup are not reached. *)
Theorem failed_fetch_still_runs_cherry
  (u : unit) (branch : option string) (themes : list Theme) (x : Error) :
  outcome joined = Resolved (u, branch, themes) ->
  err (git_fetch w) = Some x ->
  run e w
  = ((trace joined ++ [Log "Running 'git fetch --all'"; ExecGitFetch;
                        Log ("git 'cherry -v " ++ gitBase branch ++ "'");
                        ExecGitCherry (gitBase branch)])%list,
     Rejected x).
Proof.
  intros Hj Hx. unfold run. rewrite (andThen_resolved _ _ _ Hj).
  unfold fetchCommits, check. rewrite Hx. reflexivity.
Qed.

End Stages.

Lemma planner_rejection_skips_cleanup_witness :
  let themes := [Sample.staged (99 * Sample.day)%Z; Sample.live] in
  outcome (run Sample.plainEnv (Sample.deployFails themes))
  = Rejected (Failure "deploy failed") /\
  calls (trace (run Sample.plainEnv (Sample.deployFails themes)))
  = [ExecRm; Mkdir; ChdirTmp; ExecGitBranch; HttpGetThemes; ExecGitFetch;
     ExecGitCherry "develop"; ChdirRoot; BrrlDeploy (IdVal (IdNum 7))].
Proof.
  intros themes.
  pose proof (planner_rejection_skips_cleanup Sample.plainEnv (Sample.deployFails themes)
                tt (Some "feature/header") themes (parseCommits Sample.cherryOut)
                (Failure "deploy failed") eq_refl eq_refl eq_refl) as H.
  rewrite H. split; reflexivity.
Defined.

Lemma resolved_run_has_cleaned_up_witness :
  rm_after (Sample.calm [Sample.live]) = None /\
  exists before,
    trace (run Sample.plainEnv (Sample.calm [Sample.live]))
    = (before ++ [Log "Removing tmp directory"; ExecRm])%list.
Proof.
  exact (resolved_run_has_cleaned_up Sample.plainEnv (Sample.calm [Sample.live]) tt
           eq_refl eq_refl).
Defined.

Lemma failed_fetch_still_runs_cherry_witness :
  calls (trace (run Sample.plainEnv (Sample.fetchFails [Sample.live])))
  = [Mkdir; ChdirTmp; ExecGitBranch; HttpGetThemes; ExecGitFetch; ExecGitCherry "master"] /\
  outcome (run Sample.plainEnv (Sample.fetchFails [Sample.live]))
  = Rejected (Failure "Command failed: git fetch --all").
Proof.
  pose proof (failed_fetch_still_runs_cherry Sample.plainEnv
                (Sample.fetchFails [Sample.live]) tt (Some "develop") [Sample.live]
                (Failure "Command failed: git fetch --all") eq_refl eq_refl) as H.
  rewrite H. split; reflexivity.
Defined.

(** ** The deploy call within a run *)

Section DeployOnce.

Local Abbreviation calm := (Forall (fun ev => isDeploy ev = false)).

Lemma calm_andThen {A B} (p : Promise A) (k : A -> Promise B) :
  calm (trace p) -> (forall a, calm (trace (k a))) -> calm (trace (andThen p k)).
Proof.
  intros Hp Hk. destruct p as [tr [a| |]]; cbn in *; try exact Hp.
  specialize (Hk a). destruct (k a) as [tr' o]. cbn in *.
  apply Forall_app. now split.
Qed.

(** Where the deploy event is, in a list that has one between two parts
    without any. *)
Lemma deploy_position (P S a b : list Event) (v0 v : JsVal) :
  calm P -> calm S ->
  (P ++ BrrlDeploy v0 :: S = a ++ BrrlDeploy v :: b)%list ->
  a = P /\ v = v0 /\ b = S.
Proof.
  intros HP HS. revert a. induction HP as [|x P Hx _ IH]; intros a H.
  - destruct a as [|y a]; cbn in H.
    + now injection H as -> ->.
    + injection H as <- H. exfalso.
      assert (Hin : In (BrrlDeploy v) S) by (rewrite H; apply in_elt).
      rewrite Forall_forall in HS. discriminate (HS _ Hin).
  - destruct a as [|y a]; cbn in H.
    + injection H as -> _. discriminate Hx.
    + injection H as <- H. destruct (IH a H) as (-> & -> & ->). auto.
Qed.

Variables (e : Env) (w : World).

Lemma calm_duplicateCurrentBase (themes : list Theme) (forcePublished : bool) :
  calm (trace (duplicateCurrentBase e w themes forcePublished)).
Proof.
  open_planner.
  split_base e themes forcePublished; split_world e w; repeat constructor.
Qed.

Lemma calm_cleanup : calm (trace (cleanup e w)).
Proof.
  unfold cleanup, check. destruct (IS_QUICK_TEST e), (rm_after w); repeat constructor.
Qed.

Local Abbreviation shape p :=
  (calm (trace p) \/
   exists P v,
     calm P /\ trace p = (P ++ [BrrlDeploy v])%list /\
     outcome p = match deploy w with
                 | Some x => Rejected x
                 | None => Resolved tt
                 end).

Lemma shape_buildAndDeploy (v : JsVal) : shape (buildAndDeploy w v).
Proof.
  unfold buildAndDeploy, check. destruct (chdir_root w).
  - left. repeat constructor.
  - right. exists [ChdirRoot], v. split; [repeat constructor|].
    now destruct (deploy w).
Qed.

Lemma shape_after {A} (p : Promise A) (k : A -> Promise unit) :
  calm (trace p) -> (forall a, shape (k a)) -> shape (andThen p k).
Proof.
  intros Hp Hk. destruct p as [tr [a| |]]; cbn [andThen]; try (left; exact Hp).
  cbn [trace fst] in Hp.
  destruct (Hk a) as [Hc|(P & v & HP & Ht & Ho)]; destruct (k a) as [tr' o];
    cbn [trace outcome fst snd] in *.
  - left. apply Forall_app. now split.
  - right. exists (tr ++ P)%list, v. subst tr'.
    split; [apply Forall_app; now split|]. split; [apply app_assoc | exact Ho].
Qed.

Lemma shape_mainRoutine (branch : option string) (themes : list Theme)
  (commits : list string) :
  shape (mainRoutine e w branch themes commits).
Proof.
  unfold mainRoutine. apply shape_after; [repeat constructor | intros _].
  destruct (Js.testI _ (branchText branch)).
  - apply shape_after; [|intros v; apply shape_buildAndDeploy].
    destruct (isAlreadyDeployedThemeForBranch _ _ _ _ _) as [[t|]|x].
    + repeat constructor.
    + apply calm_andThen; [repeat constructor | intros _].
      apply calm_duplicateCurrentBase.
    + repeat constructor.
  - destruct (andb _ (STAGE e =? "backup")).
    + left. apply calm_andThen; [apply calm_duplicateCurrentBase | intros _; constructor].
    + destruct (andb _ (STAGE e =? "deploy")); [|left; constructor].
      unfold thenOfBase.
      split_base e themes true; cbn [fst snd]; try (left; repeat constructor; fail).
      apply shape_after; [constructor | intros _; apply shape_buildAndDeploy].
Qed.

Lemma calm_joined : calm (trace (all3 (prepareTmp e w) (getBranch w) (listThemes w))).
Proof.
  unfold all3, prepareTmp, getBranch, listThemes, check. cbn [trace fst].
  destruct (tmp_exists w), (IS_QUICK_TEST e), (rm_before w), (mkdir_tmp w),
    (chdir_tmp w), (err (git_branch w)), (themes_json w); repeat constructor.
Qed.

Lemma calm_fetchCommits (branch : option string) : calm (trace (fetchCommits w branch)).
Proof.
  unfold fetchCommits, check. destruct (err (git_fetch w)); repeat constructor.
Qed.

(** The run has no deploy event, or exactly one, followed by the cleanup
    when the deploy command succeeded and by nothing when it failed. *)
Lemma run_deploy_shape :
  calm (trace (run e w)) \/
  exists P v,
    calm P /\
    match deploy w with
    | Some x => trace (run e w) = (P ++ [BrrlDeploy v])%list /\
                outcome (run e w) = Rejected x
    | None => trace (run e w) = (P ++ BrrlDeploy v :: trace (cleanup e w))%list /\
              outcome (run e w) = outcome (cleanup e w)
    end.
Proof.
  unfold run. pose proof calm_joined as Hj.
  destruct (all3 _ _ _) as [t1 [[[u branch] themes]| |]]; cbn [andThen trace fst] in *;
    try (left; exact Hj).
  pose proof (calm_fetchCommits branch) as Hf.
  destruct (fetchCommits w branch) as [t2 [commits| |]]; cbn [andThen trace fst] in *;
    try (left; apply Forall_app; now split).
  pose proof calm_cleanup as Hc.
  destruct (shape_mainRoutine branch themes commits) as [Hm|(P & v & HP & Ht & Ho)];
    destruct (mainRoutine e w branch themes commits) as [t3 o];
    cbn [trace outcome fst snd] in *.
  - left. destruct o as [[]| |]; cbn [andThen]; destruct (cleanup e w) as [t4 o4];
      cbn [trace fst] in *; repeat (apply Forall_app; split); assumption.
  - right. exists (t1 ++ t2 ++ P)%list, v.
    split; [repeat (apply Forall_app; split); assumption|].
    subst t3 o. destruct (deploy w); cbn [andThen].
    + cbn [trace outcome fst snd]. split; [|reflexivity]. now rewrite <- !app_assoc.
    + destruct (cleanup e w) as [t4 o4]. cbn [trace outcome fst snd].
      split; [|reflexivity]. now rewrite <- !app_assoc.
Qed.

(** In every run the deploy command is called at most once.  When it
    fails, the run is rejected with its error and nothing follows the call;
    when it succeeds, what follows is the cleanup, whose outcome is the
    run's. *)
Theorem deploy_is_called_once_and_last (v : JsVal) (a b : list Event) :
  trace (run e w) = (a ++ BrrlDeploy v :: b)%list ->
  calm a /\ calm b /\
  match deploy w with
  | Some x => b = [] /\ outcome (run e w) = Rejected x
  | None => b = trace (cleanup e w) /\ outcome (run e w) = outcome (cleanup e w)
  end.
Proof.
  intros H. destruct run_deploy_shape as [Hc|(P & v0 & HP & Hshape)].
  - exfalso. rewrite H, Forall_forall in Hc.
    discriminate (Hc (BrrlDeploy v) (in_elt _ _ _)).
  - destruct (deploy w) as [x|]; destruct Hshape as [Ht Ho]; rewrite Ht in H.
    + destruct (deploy_position P [] a b v0 v HP (Forall_nil _) H) as (-> & _ & ->).
      repeat split; [exact HP | constructor | exact Ho].
    + destruct (deploy_position P _ a b v0 v HP calm_cleanup H) as (-> & _ & ->).
      repeat split; [exact HP | exact calm_cleanup | exact Ho].
Qed.

End DeployOnce.

Lemma deploy_is_called_once_and_last_witness :
  let themes := [Sample.staged (99 * Sample.day)%Z; Sample.live] in
  outcome (run Sample.plainEnv (Sample.deployFails themes))
  = Rejected (Failure "deploy failed").
Proof.
  intros themes.
  destruct (deploy_is_called_once_and_last Sample.plainEnv (Sample.deployFails themes)
              (IdVal (IdNum 7))
              [Log "Removing existing tmp directory"; ExecRm; Mkdir; ChdirTmp;
               Log "Getting current branch"; ExecGitBranch; HttpGetThemes;
               Log "Existing themes fetched"; Log "Running 'git fetch --all'";
               ExecGitFetch; Log "git 'cherry -v develop'"; ExecGitCherry "develop";
               Log "Running main routine"; Log "Existing base found!";
               Log "Theme Name: STAGE - fix-bug (abc123)"; ChdirRoot]
              [] eq_refl) as (_ & _ & _ & Ho).
  exact Ho.
Defined.

(** ** First match wins in the dispatch (lines 173-203) *)

(** On a branch name matching feature, hotfix, bugfix or develop the
    planner does not look at STAGE: a name that also matches master, with
    STAGE set to deploy or backup, is handled as any other such branch. *)
Theorem pathA_ignores_stage
  (e e' : Env) (w : World) (branch : option string) (themes : list Theme)
  (commits : list string) :
  Js.testI ["feature"; "hotfix"; "bugfix"; "develop"] (branchText branch) = true ->
  IS_QUICK_TEST e = IS_QUICK_TEST e' ->
  BASE_THEME e = BASE_THEME e' ->
  mainRoutine e w branch themes commits = mainRoutine e' w branch themes commits.
Proof.
  intros Hb Hq Hbase. unfold mainRoutine. rewrite Hb.
  unfold duplicateCurrentBase, downloadTheme, uploadBaseToNewTheme.
  now rewrite (getBase_env e e' themes false Hbase), Hq.
Qed.

Lemma pathA_ignores_stage_witness :
  let themes := [Sample.staged (99 * Sample.day)%Z; Sample.live] in
  mainRoutine Sample.deployEnv (Sample.calm themes) (Some "hotfix/master-banner") themes
    (parseCommits Sample.cherryOut)
  = mainRoutine Sample.plainEnv (Sample.calm themes) (Some "hotfix/master-banner") themes
      (parseCommits Sample.cherryOut) /\
  Js.testI ["master"] "hotfix/master-banner" = true.
Proof.
  intros themes. split; [|reflexivity].
  apply (pathA_ignores_stage Sample.deployEnv Sample.plainEnv); reflexivity.
Defined.

(** ** Failures of the duplication (lines 257-264 and 300-335) *)

(** Outside quick-test mode, with a base resolved: a failing download
    rejects the duplication with the fixed error [Themekit download
    failed], whatever the cause, and neither the creation nor the read-back
    is attempted; a failing creation rejects it with the creation's own
    error and the scratch configuration is not read. *)
Theorem duplication_stops_at_first_failure
  (e : Env) (w : World) (themes : list Theme) (forcePublished : bool)
  (base : Theme) (x : Error) :
  IS_QUICK_TEST e = false ->
  getBase e themes forcePublished = ([], ReturnedPromise base) ->
  (download w = Some x ->
     outcome (duplicateCurrentBase e w themes forcePublished)
     = Rejected (Failure "Themekit download failed") /\
     calls (trace (duplicateCurrentBase e w themes forcePublished))
     = [ThemeKitDownload (id base)]) /\
  (download w = None -> new_theme w = Some x ->
     outcome (duplicateCurrentBase e w themes forcePublished) = Rejected x /\
     calls (trace (duplicateCurrentBase e w themes forcePublished))
     = [ThemeKitDownload (id base); ThemeKitNew]).
Proof.
  intros Hq Hg. open_planner. rewrite Hg, Hq. cbn [fst snd]. split.
  - intros ->. split; reflexivity.
  - intros -> ->. split; reflexivity.
Qed.

Lemma duplication_stops_at_first_failure_witness :
  outcome (duplicateCurrentBase Sample.plainEnv (Sample.downloadFails []) [Sample.live] false)
  = Rejected (Failure "Themekit download failed") /\
  calls (trace (duplicateCurrentBase Sample.plainEnv (Sample.downloadFails [])
                  [Sample.live] false))
  = [ThemeKitDownload (id Sample.live)].
Proof.
  exact (proj1 (duplication_stops_at_first_failure Sample.plainEnv
                  (Sample.downloadFails []) [Sample.live] false Sample.live
                  (Failure "401 Unauthorized") eq_refl eq_refl) eq_refl).
Defined.

(** ** The planner on the sorted list *)

Lemma sorted_after (pre post : list Theme) (t : Theme) :
  StronglySorted newerFirst (pre ++ t :: post) -> Forall (newerFirst t) post.
Proof.
  induction pre as [|x pre IH]; cbn [app]; intros H; apply StronglySorted_inv in H.
  - tauto.
  - apply IH. tauto.
Qed.

Lemma search_none_inv
  (now : Z) (commits : list string) (flag : bool) (branch : option string)
  (l : list Theme) (t : Theme) :
  isAlreadyDeployedThemeForBranch now l branch commits flag = Normal None ->
  In t l ->
  searchStep now commits flag (Normal None) t <> Normal (Some t).
Proof.
  unfold isAlreadyDeployedThemeForBranch.
  induction l as [|x l IH] using rev_ind; [intros _ []|].
  rewrite fold_left_app. cbn [fold_left]. intros H Hin.
  destruct (fold_left (searchStep now commits flag) l (Normal None))
    as [[found|]|err] eqn:Hl; try discriminate H.
  apply in_app_or in Hin as [Hin|[<-|[]]]; [now apply IH|].
  rewrite H. discriminate.
Qed.

Lemma find_first_inv {A} (f : A -> bool) (l : list A) (x : A) :
  find f l = Some x ->
  exists pre post, l = (pre ++ x :: post)%list /\ Forall (fun y => f y = false) pre.
Proof.
  induction l as [|y l IH]; [discriminate|]. cbn [find].
  destruct (f y) eqn:Hy.
  - intros [= ->]. now exists [], l.
  - intros H. destruct (IH H) as (pre & post & -> & Hpre).
    exists (y :: pre), post. split; [reflexivity | now constructor].
Qed.

(** On the list as the Artifact Lister delivers it, the theme the search
    returns is at least as recently updated as every theme of the response
    that qualifies on its own. *)
Theorem search_prefers_the_most_recent
  (now : Z) (response : list Theme) (branch : option string)
  (commits : list string) (noLessThan7DaysOld : bool) (t other : Theme) :
  isAlreadyDeployedThemeForBranch now (sortThemes response) branch commits
    noLessThan7DaysOld = Normal (Some t) ->
  In other response ->
  searchStep now commits noLessThan7DaysOld (Normal None) other = Normal (Some other) ->
  (updated_at other <= updated_at t)%Z.
Proof.
  intros Hs Hin Hq.
  destruct (sortThemes_sorted_perm response) as (Hperm & Hsorted).
  destruct (search_found_inv _ _ _ _ _ _ Hs) as (pre & post & Hl & Hpre & _).
  apply (Permutation_in _ Hperm) in Hin. rewrite Hl in Hin, Hsorted.
  apply in_app_or in Hin as [Hin|[<-|Hin]].
  - now destruct (search_none_inv _ _ _ _ _ _ Hpre Hin).
  - lia.
  - pose proof (sorted_after _ _ _ Hsorted) as Hpost.
    rewrite Forall_forall in Hpost. exact (Hpost _ Hin).
Qed.

Lemma search_prefers_the_most_recent_witness :
  (updated_at (Sample.staged (94 * Sample.day)%Z)
   <= updated_at (Sample.staged (97 * Sample.day)%Z))%Z.
Proof.
  apply (search_prefers_the_most_recent (100 * Sample.day)%Z
           [Sample.live; Sample.staged (94 * Sample.day)%Z;
            Sample.staged (97 * Sample.day)%Z]
           (Some "develop") (parseCommits Sample.cherryOut) true
           (Sample.staged (97 * Sample.day)%Z) (Sample.staged (94 * Sample.day)%Z)).
  - reflexivity.
  - right. left. reflexivity.
  - reflexivity.
Defined.

(** On that list, without an explicit base id and without
    [forcePublished], when the published theme is not itself live or stage
    the base is at least as recently updated as every live or stage theme
    of the response. *)
Theorem fallback_base_is_the_most_recent
  (e : Env) (response : list Theme) (published base other : Theme) :
  BASE_THEME e = None ->
  find (fun theme => role theme =? "main") (sortThemes response) = Some published ->
  isLiveOrStage published = false ->
  getBase e (sortThemes response) false = ([], ReturnedPromise base) ->
  In other response ->
  isLiveOrStage other = true ->
  (updated_at other <= updated_at base)%Z.
Proof.
  intros Hbase Hmain Hpub Hg Hin Hother.
  unfold getBase in Hg. rewrite Hmain, Hbase, Hpub in Hg.
  destruct (find isLiveOrStage (sortThemes response)) as [u|] eqn:Hu; [|discriminate].
  injection Hg as ->.
  destruct (find_first_inv _ _ _ Hu) as (pre & post & Hl & Hpre).
  destruct (sortThemes_sorted_perm response) as (Hperm & Hsorted).
  apply (Permutation_in _ Hperm) in Hin. rewrite Hl in Hin, Hsorted.
  apply in_app_or in Hin as [Hin|[<-|Hin]].
  - rewrite Forall_forall in Hpre. specialize (Hpre _ Hin). congruence.
  - lia.
  - pose proof (sorted_after _ _ _ Hsorted) as Hpost.
    rewrite Forall_forall in Hpost. exact (Hpost _ Hin).
Qed.

Lemma fallback_base_is_the_most_recent_witness :
  (updated_at Sample.live <= updated_at Sample.stageY)%Z.
Proof.
  apply (fallback_base_is_the_most_recent Sample.plainEnv
           [Sample.live; Sample.devOther; Sample.stageY; Sample.devMain]
           Sample.devMain Sample.stageY Sample.live); try reflexivity.
  left. reflexivity.
Defined.

